(** * The RDP proxy module of bettercap (modules/rdp_proxy)

    A shallow embedding of [rdp_proxy_linux_amd64.go]: the module record,
    the per-packet callback [handleRdpConnection], the firewall helpers and
    the [Configure] / [Start] / [Stop] life cycle, followed by the
    properties the specification states about them.

    The module talks to four outside parties: the packet decoder
    (gopacket), the kernel queue (nfqueue-go), the firewall ([core.Exec] of
    iptables) and the operating system ([os/exec]).  Their types are taken
    as parameters, their answers come from a [World] handed to every
    operation, and every call the module makes is recorded, with the answer
    it got, in a trace of [Event]s.

    A second part embeds the packet parsers of the sniffer
    ([net_sniff_parsers.go]), whose [mainParser] makes the nil checks on
    the layers of a packet that the callback above leaves out. *)

From Stdlib Require Import ZArith String List Lia DecimalString.
From stdpp Require Import base gmap strings list.

Local Open Scope Z_scope.
Local Open Scope string_scope.

(** ** Go values *)

(** A Go [error] is carried by its message; [nil] is [None]. *)
Definition Error : Type := string.

(** Go's [int] on linux/amd64 is a signed 64-bit integer. *)
Definition wrap64 (z : Z) : Z := (z + 2 ^ 63) mod 2 ^ 64 - 2 ^ 63.

(** [fmt.Sprintf("%d", n)] *)
Definition Sprintf_d (n : Z) : string := NilZero.string_of_int (Z.to_int n).

(** [os.Process], known by its pid. *)
Definition Pid : Type := Z.

(** [exec.Cmd]: [exec.Command(name, arg...)] fills [Path] and [Args]
    ([Args] starts with the command name; [Path] is kept here as the name
    given, before its lookup along the path); [Process] stays [nil] until
    [Start] succeeds. *)
Record Cmd := mkCmd {
  Path : string;
  Args : list string;
  Process : option Pid
}.

Definition exec_Command (name : string) (arg : list string) : Cmd :=
  {| Path := name; Args := name :: arg; Process := None |}.

(** [nfqueue.Queue]: the module only holds the pointer; what was done to
    the handle is read off the trace. *)
Inductive Queue := new_Queue.

(** Verdicts of netfilter. *)
Inductive Verdict := NF_DROP | NF_ACCEPT.

(** The methods of [*nfqueue.Queue] the module calls. *)
Inductive QueueOp :=
| SetCallback
| Init
| Unbind
| Bind
| CreateQueue (num : Z)
| SetMode
| Loop
| StopLoop
| DestroyQueue
| Close.

(** Every call that leaves the module, with the answer it received. *)
Inductive Event :=
| EInfo (msg : string)                                      (* mod.Info *)
| EDebug (msg : string)                                     (* mod.Debug *)
| EExec (name : string) (args : list string) (err : option Error) (* core.Exec *)
| ECmdStart (c : Cmd) (err : option Error)                  (* cmd.Start() *)
| EKill (p : Pid)                                           (* cmd.Process.Kill() *)
| EQueue (op : QueueOp) (err : option Error)
| EVerdict (v : Verdict).                                   (* payload.SetVerdict *)

(** [nfqueue.Payload] *)
Record Payload := mkPayload { Data : list Byte.byte }.

(** ** The packet library *)

(** [gopacket.Flow], over the type of [gopacket.Endpoint]. *)
Record Flow (E : Type) := mkFlow { Src : E; Dst : E }.
Arguments mkFlow {E} _ _.
Arguments Src {E} _.
Arguments Dst {E} _.

(** [gopacket.Packet]: [NetworkLayer()] and [TransportLayer()] return a nil
    interface when the decoder found no such layer; the flows are
    [NetworkFlow()] and [TransportFlow()] of the layer found. *)
Record Packet (E : Type) := mkPacket {
  NetworkLayer : option (Flow E);
  TransportLayer : option (Flow E)
}.
Arguments mkPacket {E} _ _.
Arguments NetworkLayer {E} _.
Arguments TransportLayer {E} _.

(** What the module uses of gopacket and of package net.  [Endpoint] and
    [net.IP] are used through their [String] methods only (directly, or by
    [%s] and [%v]); [NewPacket data] is
    [gopacket.NewPacket(data, layers.LayerTypeIPv4, gopacket.Default)]. *)
Class PacketLib := {
  Endpoint : Type;
  Endpoint_String : Endpoint -> string;
  IP : Type;
  IP_String : IP -> string;
  NewPacket : list Byte.byte -> Packet Endpoint
}.

Section RdpProxy.

Context {L : PacketLib}.

(** ** The module *)

Record RdpProxy := mkRdpProxy {
  Running : bool;                 (* session.SessionModule *)
  queue : option Queue;
  queueNum : Z;
  port : Z;
  startPort : Z;
  cmd : string;
  active : gmap string Cmd;
  addresses : list IP
}.

Definition NewRdpProxy : RdpProxy :=
  {| Running := false;
     queue := None;
     queueNum := 0;
     port := 3389;
     startPort := 40000;
     cmd := "pyrdp-mitm.py";
     active := ∅;
     addresses := [] |}.

(** The parameters [NewRdpProxy] registers, with their defaults
    ([rdp.proxy.targets] defaults to the session's subnet, which is not a
    constant). *)
Definition registered_params : list (string * option string) :=
  [ ("rdp.proxy.queue.num", Some "0");
    ("rdp.proxy.port", Some "3389");
    ("rdp.proxy.start", Some "40000");
    ("rdp.proxy.command", Some "pyrdp-mitm.py");
    ("rdp.proxy.out", Some "./");
    ("rdp.proxy.targets", None) ].

(** ** The outside world *)

Inductive StartResult :=
| StartOk (p : Pid)
| StartErr (e : Error).

Record World := mkWorld {
  IntParam : string -> option Error * Z;
  StringParam : string -> option Error * string;
  (* network.ParseTargets(targets, mod.Session.Lan.Aliases()) *)
  ParseTargets : string -> list IP * option Error;
  LookPath : string -> option Error;
  queueCall : QueueOp -> option Error;
  coreExec : string -> list string -> option Error;
  cmdStart : Cmd -> StartResult
}.

(** ** Effects: state, trace and panics *)

(** What a method leaves behind: the value it returned, or [None] when it
    panicked, the module after it and the calls it made. *)
Record Run (A : Type) := mkRun {
  res : option A;
  st : RdpProxy;
  trace : list Event
}.
Arguments mkRun {A} _ _ _.
Arguments res {A} _.
Arguments st {A} _.
Arguments trace {A} _.

Definition M (A : Type) : Type := RdpProxy -> Run A.

Definition ret {A} (a : A) : M A := fun s => mkRun (Some a) s [].

Definition bind {A B} (m : M A) (f : A -> M B) : M B :=
  fun s =>
    match m s with
    | mkRun None s1 t1 => mkRun None s1 t1
    | mkRun (Some a) s1 t1 =>
        match f a s1 with
        | mkRun r s2 t2 => mkRun r s2 (t1 ++ t2)
        end
    end.

Definition get : M RdpProxy := fun s => mkRun (Some s) s [].
Definition modify (f : RdpProxy -> RdpProxy) : M unit :=
  fun s => mkRun (Some tt) (f s) [].
Definition emit (e : Event) : M unit := fun s => mkRun (Some tt) s [e].
Definition panic {A} : M A := fun s => mkRun None s [].

(** A method call through an interface value: a nil interface panics. *)
Definition deref {A} (o : option A) : M A :=
  match o with
  | Some a => ret a
  | None => panic
  end.

Notation "x <- m ;; k" := (bind m (fun x => k))
  (at level 100, m at next level, k at level 200, right associativity).
Notation "m ;; k" := (bind m (fun _ => k))
  (at level 100, k at level 200, right associativity).

(** Field updates. *)
Definition set_Running (b : bool) (m : RdpProxy) : RdpProxy :=
  mkRdpProxy b (queue m) (queueNum m) (port m) (startPort m) (cmd m)
             (active m) (addresses m).
Definition set_queue (q : option Queue) (m : RdpProxy) : RdpProxy :=
  mkRdpProxy (Running m) q (queueNum m) (port m) (startPort m) (cmd m)
             (active m) (addresses m).
Definition set_queueNum (n : Z) (m : RdpProxy) : RdpProxy :=
  mkRdpProxy (Running m) (queue m) n (port m) (startPort m) (cmd m)
             (active m) (addresses m).
Definition set_port (n : Z) (m : RdpProxy) : RdpProxy :=
  mkRdpProxy (Running m) (queue m) (queueNum m) n (startPort m) (cmd m)
             (active m) (addresses m).
Definition set_startPort (n : Z) (m : RdpProxy) : RdpProxy :=
  mkRdpProxy (Running m) (queue m) (queueNum m) (port m) n (cmd m)
             (active m) (addresses m).
Definition set_cmd (c : string) (m : RdpProxy) : RdpProxy :=
  mkRdpProxy (Running m) (queue m) (queueNum m) (port m) (startPort m) c
             (active m) (addresses m).
Definition set_active (a : gmap string Cmd) (m : RdpProxy) : RdpProxy :=
  mkRdpProxy (Running m) (queue m) (queueNum m) (port m) (startPort m) (cmd m)
             a (addresses m).
Definition set_addresses (l : list IP) (m : RdpProxy) : RdpProxy :=
  mkRdpProxy (Running m) (queue m) (queueNum m) (port m) (startPort m) (cmd m)
             (active m) l.

(** ** Calls to the outside *)

Definition Info (msg : string) : M unit := emit (EInfo msg).
Definition Debug (msg : string) : M unit := emit (EDebug msg).

(** [core.Exec(name, args)]; its output is never used. *)
Definition Exec (w : World) (name : string) (args : list string)
  : M (option Error) :=
  let err := coreExec w name args in
  emit (EExec name args err) ;; ret err.

(** [cmd.Start()]: on success the command holds its process. *)
Definition Cmd_Start (w : World) (c : Cmd) : M (Cmd * option Error) :=
  match cmdStart w c with
  | StartOk p =>
      emit (ECmdStart c None) ;;
      ret ({| Path := Path c; Args := Args c; Process := Some p |}, None)
  | StartErr e =>
      emit (ECmdStart c (Some e)) ;; ret (c, Some e)
  end.

Definition qcall (w : World) (op : QueueOp) : M (option Error) :=
  let err := queueCall w op in
  emit (EQueue op err) ;; ret err.

(** ** The methods of the module *)

Fixpoint isTarget_in (addrs : list IP) (ip : string) : bool :=
  match addrs with
  | [] => false
  | addr :: rest =>
      if String.eqb (IP_String addr) ip then true else isTarget_in rest ip
  end.

Definition isTarget (m : RdpProxy) (ip : string) : bool :=
  isTarget_in (addresses m) ip.

(** Adds the firewall rule for proxy instance. *)
Definition doProxy (w : World) (addr : string) (port' : string)
    (enable : bool) : M (option Error) :=
  m <- get ;;
  Exec w "iptables"
    [ "-t"; "nat";
      "-I"; "BCAPRDP"; "1";
      "-d"; addr;
      "-p"; "tcp";
      "--dport"; Sprintf_d (port m);
      "-j"; "REDIRECT";
      "--to-ports"; port' ].

Definition doReturn (w : World) (dst : string) (dport : Endpoint)
    (enable : bool) : M (option Error) :=
  Exec w "iptables"
    [ "-t"; "nat";
      "-I"; "BCAPRDP"; "1";
      "-p"; "tcp";
      "-d"; dst;
      "--dport"; Endpoint_String dport;
      "-j"; "RETURN" ].

Definition firewall_rules (m : RdpProxy) (enable : bool)
  : list (list string) :=
  if enable then
    [ [ "-t"; "nat"; "-N"; "BCAPRDP" ];
      [ "-t"; "nat"; "-I"; "PREROUTING"; "1"; "-j"; "BCAPRDP" ];
      [ "-t"; "nat"; "-A"; "BCAPRDP";
        "-p"; "tcp"; "-m"; "tcp"; "--dport"; Sprintf_d (port m);
        "-j"; "NFQUEUE"; "--queue-num"; Sprintf_d (queueNum m);
        "--queue-bypass" ] ]
  else
    [ [ "-t"; "nat"; "-D"; "PREROUTING"; "-j"; "BCAPRDP" ];
      [ "-t"; "nat"; "-F"; "BCAPRDP" ];
      [ "-t"; "nat"; "-X"; "BCAPRDP" ] ].

Fixpoint exec_rules (w : World) (rules : list (list string))
  : M (option Error) :=
  match rules with
  | [] => ret None
  | rule :: rest =>
      err <- Exec w "iptables" rule ;;
      match err with
      | Some e => ret (Some e)
      | None => exec_rules w rest
      end
  end.

Definition configureFirewall (w : World) (enable : bool)
  : M (option Error) :=
  m <- get ;;
  exec_rules w (firewall_rules m enable).

Definition destroyQueue (w : World) : M unit :=
  m <- get ;;
  match queue m with
  | None => ret tt
  | Some _ =>
      qcall w DestroyQueue ;;
      qcall w Close ;;
      modify (set_queue None)
  end.

(** [fmt.Sprintf("%v", mod.addresses)] on a slice of [net.IP] *)
Definition Sprintf_addresses (l : list IP) : string :=
  "[" ++ String.concat " " (List.map IP_String l) ++ "]".

(** The [else if] chain of [Configure]: stop at the first error. *)
Definition orelse (err : option Error) (k : M (option Error))
  : M (option Error) :=
  match err with
  | Some e => ret (Some e)
  | None => k
  end.

Definition Configure (w : World) : M (option Error) :=
  destroyQueue w ;;
  (* each parameter is assigned before its error is looked at *)
  let '(err, v) := IntParam w "rdp.proxy.port" in
  modify (set_port v) ;;
  orelse err (
  let '(err, v) := StringParam w "rdp.proxy.command" in
  modify (set_cmd v) ;;
  orelse err (
  let '(err, v) := IntParam w "rdp.proxy.queue.num" in
  modify (set_queueNum v) ;;
  orelse err (
  let '(err, targets) := StringParam w "rdp.proxy.targets" in
  orelse err (
  let '(addrs, err) := ParseTargets w targets in
  modify (set_addresses addrs) ;;
  orelse err (
  m <- get ;;
  orelse (LookPath w (cmd m)) (
  Info "Starting RDP Proxy" ;;
  Debug ("addresses=" ++ Sprintf_addresses (addresses m)) ;;
  (* Create the NFQUEUE handler. *)
  modify (set_queue (Some new_Queue)) ;;
  err <- qcall w SetCallback ;; orelse err (
  err <- qcall w Init ;; orelse err (
  err <- qcall w Unbind ;; orelse err (
  err <- qcall w Bind ;; orelse err (
  err <- qcall w (CreateQueue (queueNum m)) ;; orelse err (
  err <- qcall w SetMode ;; orelse err (
  err <- configureFirewall w true ;; orelse err (
  ret None))))))))))))).

(** The three format strings of [handleRdpConnection]. *)
Definition connect_msg (src sport dst dport : Endpoint) : string :=
  "CONNECT [" ++ Endpoint_String src ++ ":" ++ Endpoint_String sport
  ++ " -> " ++ Endpoint_String dst ++ ":" ++ Endpoint_String dport ++ "]".

Definition nontarget_msg (src sport dst dport : Endpoint) : string :=
  "Non-target, won't intercept [" ++ Endpoint_String src ++ ":"
  ++ Endpoint_String sport ++ " -> " ++ Endpoint_String dst ++ ":"
  ++ Endpoint_String dport ++ "]".

(** [fmt.Sprintf("%v:%v", dst, dport)], the key of a session. *)
Definition Sprintf_target (dst dport : Endpoint) : string :=
  Endpoint_String dst ++ ":" ++ Endpoint_String dport.

(** Note: It is probably a good idea to verify whether this call is
    serialized. *)
Definition handleRdpConnection (w : World) (payload : Payload) : M Z :=
  (* 1. Determine source and target addresses. *)
  let p := NewPacket (Data payload) in
  nl <- deref (NetworkLayer p) ;;
  tl <- deref (TransportLayer p) ;;
  let src := Src nl in
  let sport := Src tl in
  let dst := Dst nl in
  let dport := Dst tl in
  m <- get ;;
  (if isTarget m (Endpoint_String dst) then
     Info (connect_msg src sport dst dport) ;;
     let target := Sprintf_target dst dport in
     (* 2. Check if the destination IP already has a PYRDP session active,
        if so, do nothing. *)
     match active m !! target with
     | Some _ => ret tt
     | None =>
         (* 3.1. Otherwise, create a proxy agent and firewall rules. *)
         let args := [ "-l"; Sprintf_d (startPort m); target ] in
         (* 3.2. Spawn pyrdp proxy instance *)
         let c := exec_Command (cmd m) args in
         started <- Cmd_Start w c ;;
         let c := fst started in
         (* the error of Start is looked at and nothing is done with it *)
         (* 3.3. Add a NAT rule in the firewall for this particular
            target IP *)
         doProxy w (Endpoint_String dst) (Sprintf_d (startPort m)) true ;;
         modify (fun m => set_active (<[target := c]> (active m)) m) ;;
         modify (fun m => set_startPort (wrap64 (startPort m + 1)) m)
     end
   else
     Info (nontarget_msg src sport dst dport) ;;
     (* Add an exception in the firewall to avoid intercepting packets to
        this destination and port *)
     doReturn w (Endpoint_String dst) dport true ;;
     ret tt) ;;
  (* Force a retransmit to trigger the new firewall rules. *)
  emit (EVerdict NF_DROP) ;;
  ret 0.

(** NFQUEUE needs a raw function. *)
Definition OnRDPConnection (w : World) (payload : Payload) : M Z :=
  handleRdpConnection w payload.

(** [queue.Loop()] hands every queued packet to the callback, one after
    the other, each in the world of its moment; a panic of the callback
    ends the loop. *)
Fixpoint deliver (packets : list (World * Payload)) : M unit :=
  match packets with
  | [] => ret tt
  | (w, payload) :: rest => OnRDPConnection w payload ;; deliver rest
  end.

(** The errors with which the session package rejects the start of a
    running module and the stop of a stopped one; that they are errors is
    all that is used of them. *)
Definition ErrAlreadyStarted (name : string) : Error :=
  "module " ++ name ++ " is already running".
Definition ErrAlreadyStopped (name : string) : Error :=
  "module " ++ name ++ " is not running".

Definition Name : string := "rdp.proxy".

(** Modelled from the spec: [session.SessionModule.SetRunning], which is
    not among the sources.  The specification has [Start] rejected when the
    module is already running, the module [Running] once [Start] has
    succeeded and [Stopped] once [Stop] has run its steps; [Stop] on a
    stopped module is rejected the same way. *)
Definition SetRunning (running : bool) (cb : M unit) : M (option Error) :=
  m <- get ;;
  if Bool.eqb running (Running m) then
    ret (Some (if running then ErrAlreadyStarted Name
               else ErrAlreadyStopped Name))
  else
    modify (set_Running running) ;;
    cb ;;
    ret None.

(** [Start] launches a worker that logs, enters [queue.Loop()] and, when
    the loop is over, sends on [mod.done] and runs the deferred
    [destroyQueue].  [Start] returns with the worker in the loop.  The
    channel is unbuffered, so the worker gets past its send when [Stop]
    receives: [worker_exit], the deferred [destroyQueue], runs on the
    worker after that, while [Stop] returns on its own. *)
Definition worker_enter (w : World) : M unit :=
  m <- get ;;
  Info ("started on queue number " ++ Sprintf_d (queueNum m)) ;;
  qcall w Loop ;;
  ret tt.

Definition worker_exit (w : World) : M unit :=
  destroyQueue w.

Definition Start (w : World) : M (option Error) :=
  m <- get ;;
  if Running m then ret (Some (ErrAlreadyStarted Name))
  else
    err <- Configure w ;;
    match err with
    | Some e => ret (Some e)
    | None => SetRunning true (worker_enter w)
    end.

(** [for _, cmd := range mod.active { cmd.Process.Kill() }]: a command
    whose [Start] failed has a nil [Process]. *)
Fixpoint kill_all (cmds : list (string * Cmd)) : M unit :=
  match cmds with
  | [] => ret tt
  | (_, c) :: rest =>
      p <- deref (Process c) ;;
      emit (EKill p) ;;
      kill_all rest
  end.

(** [range mod.active]: Go visits the entries of a map in an order of its
    choosing.  [order] is the choice made for one loop: the keys it names
    are visited first, as it names them, and the entries it does not name
    after them.  Every order of the entries is the choice of some
    [order]. *)
Fixpoint range_over (order : list string) (a : gmap string Cmd)
  : list (string * Cmd) :=
  match order with
  | [] => map_to_list a
  | k :: rest =>
      match a !! k with
      | Some c => (k, c) :: range_over rest (delete k a)
      | None => range_over rest a
      end
  end.

(** [Stop] ends with the receive from [mod.done], which the worker
    answers once it is out of the loop; the queue is the worker's to
    destroy, in [worker_exit], after [Stop] has received. *)
Definition Stop (w : World) (order : list string) : M (option Error) :=
  SetRunning false (
    m <- get ;;
    deref (queue m) ;;
    qcall w StopLoop ;;
    configureFirewall w false ;;
    kill_all (range_over order (active m))).

(** ** The module at work *)

(** What reaches the module: the session commands [rdp.proxy on] and
    [rdp.proxy off], the latter with the order in which its loop visits
    the sessions, the worker leaving, and the packets the queue hands to
    the callback.  The code has the worker leave after a [Stop]; a history
    may have it leave at any point. *)
Inductive Call :=
| CallStart
| CallStop (order : list string)
| CallWorkerExit
| CallPacket (payload : Payload).

Definition call (w : World) (c : Call) : M unit :=
  match c with
  | CallStart => Start w ;; ret tt
  | CallStop order => Stop w order ;; ret tt
  | CallWorkerExit => worker_exit w
  | CallPacket payload => OnRDPConnection w payload ;; ret tt
  end.

(** A history of calls, each in the world of its moment; a panic ends
    it. *)
Fixpoint run (calls : list (World * Call)) : M unit :=
  match calls with
  | [] => ret tt
  | (w, c) :: rest => call w c ;; run rest
  end.

End RdpProxy.

Arguments mkRun {L A} _ _ _.
Arguments res {L A} _.
Arguments st {L A} _.
Arguments trace {L A} _.

(** ** Reading a trace *)

Definition is_exec (e : Event) : bool :=
  match e with EExec _ _ _ => true | _ => false end.
Definition is_log (e : Event) : bool :=
  match e with EInfo _ | EDebug _ => true | _ => false end.

(** The verdicts set on packets, in order. *)
Definition verdicts (tr : list Event) : list Verdict :=
  flat_map (fun e => match e with EVerdict v => [v] | _ => [] end) tr.

(** The commands handed to [cmd.Start()], in order. *)
Definition spawned (tr : list Event) : list Cmd :=
  flat_map (fun e => match e with ECmdStart c _ => [c] | _ => [] end) tr.

(** The iptables command lines run, in order. *)
Definition rules (tr : list Event) : list (list string) :=
  flat_map (fun e => match e with EExec _ args _ => [args] | _ => [] end) tr.

(** The processes killed, in order. *)
Definition killed (tr : list Event) : list Pid :=
  flat_map (fun e => match e with EKill p => [p] | _ => [] end) tr.

(** What the module itself reports: its log lines. *)
Definition logs (tr : list Event) : list Event := List.filter is_log tr.

(** A trace with the answers to [core.Exec] blanked. *)
Definition forget_exec_answer (e : Event) : Event :=
  match e with
  | EExec name args _ => EExec name args None
  | _ => e
  end.

(** The port an agent was told to listen on: [Args] is
    [name; "-l"; port; target]. *)
Definition listen_port (c : Cmd) : string := nth 2 (Args c) "".

(** The command and the chain of an iptables line of the module, which
    all start with [-t nat]. *)
Definition rule_command (args : list string) : option (string * string) :=
  match args with
  | _ :: _ :: op :: chain :: _ => Some (op, chain)
  | _ => None
  end.

Definition rule_is (op chain : string) (args : list string) : bool :=
  match rule_command args with
  | Some (op', chain') => String.eqb op op' && String.eqb chain chain'
  | None => false
  end.


(** Lines that empty or delete the module's chain. *)
Definition removes_chain (args : list string) : bool :=
  rule_is "-F" "BCAPRDP" args || rule_is "-X" "BCAPRDP" args.

(** Calls that take down what [Configure] sets up. *)
Definition is_teardown (e : Event) : bool :=
  match e with
  | EQueue DestroyQueue _ | EQueue Close _ => true
  | EExec _ args _ =>
      removes_chain args || rule_is "-D" "PREROUTING" args
  | _ => false
  end.

(** What the calls of a trace that succeeded leave in the kernel: whether
    a queue is bound to the handle, and whether the chain exists. *)
Definition queue_bound_step (bound : bool) (e : Event) : bool :=
  match e with
  | EQueue (CreateQueue _) None => true
  | EQueue DestroyQueue _ => false
  | _ => bound
  end.

Definition chain_exists_step (exists_ : bool) (e : Event) : bool :=
  match e with
  | EExec _ args None =>
      if rule_is "-N" "BCAPRDP" args then true
      else if rule_is "-X" "BCAPRDP" args then false
      else exists_
  | _ => exists_
  end.

Definition queue_bound (tr : list Event) : bool :=
  fold_left queue_bound_step tr false.
Definition chain_exists (tr : list Event) : bool :=
  fold_left chain_exists_step tr false.

(** ** The vocabulary of the statements *)

Section Vocabulary.

Context {L : PacketLib}.

(** The command of the agent for a new session, and the command as the
    session map keeps it. *)
Definition agent (m : RdpProxy) (target : string) : Cmd :=
  exec_Command (cmd m) [ "-l"; Sprintf_d (startPort m); target ].

Definition tracked (w : World) (c : Cmd) : Cmd :=
  match cmdStart w c with
  | StartOk p => {| Path := Path c; Args := Args c; Process := Some p |}
  | StartErr _ => c
  end.

Definition start_error (w : World) (c : Cmd) : option Error :=
  match cmdStart w c with
  | StartOk _ => None
  | StartErr e => Some e
  end.

(** The packet decodes to these two layers. *)
Definition decodes (payload : Payload) (nl tl : Flow Endpoint) : Prop :=
  NetworkLayer (NewPacket (Data payload)) = Some nl /\
  TransportLayer (NewPacket (Data payload)) = Some tl.

(** The packet has the two layers the callback asks for, and the packets
    of a loop that come before the first one that has not. *)
Definition has_layers (payload : Payload) : bool :=
  match NetworkLayer (NewPacket (Data payload)),
        TransportLayer (NewPacket (Data payload)) with
  | Some _, Some _ => true
  | _, _ => false
  end.

Fixpoint handled (packets : list (World * Payload))
  : list (World * Payload) :=
  match packets with
  | [] => []
  | (w, payload) :: rest =>
      if has_layers payload then (w, payload) :: handled rest else []
  end.


(** The processes a list of tracked commands holds. *)
Definition pids (cmds : list (string * Cmd)) : list Pid :=
  flat_map (fun kc => match Process (snd kc) with
                      | Some p => [p]
                      | None => []
                      end) cmds.

(** What a run of the callback shows to whoever watches the module: the
    value returned to the queue and the lines logged. *)
Definition reports (r : Run Z) : option Z * list Event :=
  (res r, logs (trace r)).

(** A failure is surfaced when the run that met it reports something
    else than the run that did not. *)
Definition surfaced (failing passing : Run Z) : Prop :=
  reports failing <> reports passing.



(** A failed [Start] that leaves nothing behind: the module stopped, no
    queue handle, no queue bound, no chain. *)
Definition clean_failure (r : Run (option Error)) : Prop :=
  Running (st r) = false /\ queue (st r) = None /\
  queue_bound (trace r) = false /\ chain_exists (trace r) = false.

(** The first error among the checks [Configure] makes before it creates
    the queue handle: the four parameters, the target specification and the
    lookup of the executable. *)
Definition validation_error (w : World) : option Error :=
  match fst (IntParam w "rdp.proxy.port") with
  | Some e => Some e
  | None =>
  match fst (StringParam w "rdp.proxy.command") with
  | Some e => Some e
  | None =>
  match fst (IntParam w "rdp.proxy.queue.num") with
  | Some e => Some e
  | None =>
  match fst (StringParam w "rdp.proxy.targets") with
  | Some e => Some e
  | None =>
  match snd (ParseTargets w (snd (StringParam w "rdp.proxy.targets"))) with
  | Some e => Some e
  | None => LookPath w (snd (StringParam w "rdp.proxy.command"))
  end end end end end.

(** A computation obeys [R] and [P] when, from every module, the module
    it leaves is related to the one it found by [R] and every call it
    makes satisfies [P]. *)
Definition obeys (R : RdpProxy -> RdpProxy -> Prop) (P : Event -> Prop)
    {A} (m : M A) : Prop :=
  forall s, R s (st (m s)) /\ Forall P (trace (m s)).

(** [post m s Q]: run from [s], the computation [m] ends with a result, a
    module and a trace that satisfy [Q]. *)
Definition post {A} (m : M A) (s : RdpProxy)
    (Q : option A -> RdpProxy -> list Event -> Prop) : Prop :=
  Q (res (m s)) (st (m s)) (trace (m s)).

(** The relation that holds between any two modules. *)
Definition anything (s s' : RdpProxy) : Prop := True.

(** The sessions and the port cursor are the same in both modules. *)
Definition same_sessions (s s' : RdpProxy) : Prop :=
  active s' = active s /\ startPort s' = startPort s.

(** The cursor counts the sessions made so far, from 40000 on. *)
Definition cursor_counts (m : RdpProxy) : Prop :=
  startPort m = wrap64 (40000 + Z.of_nat (size (active m))).

(** The modules that can be reached from a fresh one. *)
Definition reachable (m : RdpProxy) : Prop :=
  exists calls, m = st (run calls NewRdpProxy).

(** Every session of [s] is in [s'], with the same command. *)
Definition sessions_kept (s s' : RdpProxy) : Prop :=
  forall k c, active s !! k = Some c -> active s' !! k = Some c.

(** What [Configure] and the life cycle set is the same in both modules. *)
Definition same_config (s s' : RdpProxy) : Prop :=
  Running s' = Running s /\ queue s' = queue s /\
  queueNum s' = queueNum s /\ port s' = port s /\ cmd s' = cmd s /\
  addresses s' = addresses s.

(** Calls other than [cmd.Start()]. *)
Definition no_spawn (e : Event) : Prop :=
  match e with ECmdStart _ _ => False | _ => True end.


(** Two worlds that answer alike wherever the module asks: on the four
    parameters [Configure] reads, and in the target parser, the path
    lookup, the queue, [core.Exec] and [cmd.Start()]. *)
Definition same_answers (w w' : World) : Prop :=
  IntParam w "rdp.proxy.port" = IntParam w' "rdp.proxy.port" /\
  StringParam w "rdp.proxy.command" = StringParam w' "rdp.proxy.command" /\
  IntParam w "rdp.proxy.queue.num" = IntParam w' "rdp.proxy.queue.num" /\
  StringParam w "rdp.proxy.targets" = StringParam w' "rdp.proxy.targets" /\
  (forall targets, ParseTargets w targets = ParseTargets w' targets) /\
  (forall file, LookPath w file = LookPath w' file) /\
  (forall op, queueCall w op = queueCall w' op) /\
  (forall name args, coreExec w name args = coreExec w' name args) /\
  (forall c, cmdStart w c = cmdStart w' c).

(** An iptables in which these lines succeed. *)
Definition lines_pass (w : World) (lines : list (list string)) : Prop :=
  forall line, In line lines -> coreExec w "iptables" line = None.

(** The port cursor after [n] sessions, from [p] on. *)
Definition cursor_after (p : Z) (n : nat) : Z :=
  Nat.iter n (fun q => wrap64 (q + 1)) p.

(** The run [r], made from the module [m], has handed out its ports in
    order: the agents it started were told to listen on the cursor of [m]
    and on the cursors that follow it, one each, and the cursor and the
    session map have moved by the number of agents. *)
Definition allocated {A} (m : RdpProxy) (r : Run A) : Prop :=
  let cs := spawned (trace r) in
  List.map listen_port cs =
    List.map (fun i => Sprintf_d (cursor_after (startPort m) i))
             (seq 0 (length cs)) /\
  startPort (st r) = cursor_after (startPort m) (length cs) /\
  size (active (st r)) = (size (active m) + length cs)%nat.

End Vocabulary.

(** ** A packet library for the examples *)

(** Endpoints print as gopacket prints them, addresses in dotted decimal
    and ports in decimal.  The decoder reads a plain IPv4 header and,
    behind it, the ports of a TCP or UDP header; any other protocol gives
    no transport layer.  It stands for gopacket's in the examples only,
    which are whole, unfragmented TCP segments and ICMP messages; on a
    truncated header, a fragment or another transport protocol gopacket
    decodes otherwise, and no example uses one.  The general statements
    hold for every decoder. *)
Module Wire.

Inductive Endpoint :=
| IPv4 (a b c d : N)
| Port (p : N).

Definition Sprintf_N (n : N) : string :=
  NilZero.string_of_uint (N.to_uint n).

Definition Endpoint_String (e : Endpoint) : string :=
  match e with
  | IPv4 a b c d =>
      Sprintf_N a ++ "." ++ Sprintf_N b ++ "." ++ Sprintf_N c ++ "."
      ++ Sprintf_N d
  | Port p => Sprintf_N p
  end.

Definition IP : Type := (N * N * N * N)%type.

Definition IP_String (ip : IP) : string :=
  let '(a, b, c, d) := ip in Endpoint_String (IPv4 a b c d).

Definition byte_at (data : list Byte.byte) (i : nat) : N :=
  Byte.to_N (nth i data Byte.x00).

Definition port_at (data : list Byte.byte) (i : nat) : Endpoint :=
  Port (byte_at data i * 256 + byte_at data (S i)).

Definition addr_at (data : list Byte.byte) (i : nat) : Endpoint :=
  IPv4 (byte_at data i) (byte_at data (1 + i)) (byte_at data (2 + i))
       (byte_at data (3 + i)).

Definition NewPacket (data : list Byte.byte) : Packet Endpoint :=
  let ihl := N.to_nat (N.land (byte_at data 0) 15 * 4) in
  if ((N.shiftr (byte_at data 0) 4 =? 4)%N
      && (20 <=? ihl)%nat && (ihl <=? length data)%nat)%bool
  then
    let nl := mkFlow (addr_at data 12) (addr_at data 16) in
    let proto := byte_at data 9 in
    let rest := (length data - ihl)%nat in
    let tl := mkFlow (port_at data ihl) (port_at data (2 + ihl)) in
    if (((proto =? 6)%N && (20 <=? rest)%nat)
        || ((proto =? 17)%N && (8 <=? rest)%nat))%bool
    then mkPacket (Some nl) (Some tl)
    else mkPacket (Some nl) None
  else mkPacket None None.

#[export] Instance lib : PacketLib :=
  Build_PacketLib Endpoint Endpoint_String IP IP_String NewPacket.

(** A TCP SYN from [s:sp] to [d:dp]. *)
Definition syn (s : IP) (sp : N) (d : IP) (dp : N) : Payload :=
  let b n := match Byte.of_N n with Some x => x | None => Byte.x00 end in
  let '(s0, s1, s2, s3) := s in
  let '(d0, d1, d2, d3) := d in
  mkPayload (List.map b
    [ 69; 0; 0; 40; 0; 0; 64; 0; 64; 6; 0; 0;
      s0; s1; s2; s3; d0; d1; d2; d3;
      sp / 256; sp mod 256; dp / 256; dp mod 256;
      0; 0; 0; 0; 0; 0; 0; 0; 80; 2; 255; 255; 0; 0; 0; 0 ]%N).

(** An ICMP echo request: a network layer and no transport layer. *)
Definition ping (s d : IP) : Payload :=
  let b n := match Byte.of_N n with Some x => x | None => Byte.x00 end in
  let '(s0, s1, s2, s3) := s in
  let '(d0, d1, d2, d3) := d in
  mkPayload (List.map b
    [ 69; 0; 0; 28; 0; 0; 64; 0; 64; 1; 0; 0;
      s0; s1; s2; s3; d0; d1; d2; d3;
      8; 0; 247; 255; 0; 0; 0; 0 ]%N).

(** A world: the value of [rdp.proxy.start] in the parameter store, the
    answers of [exec.LookPath], of the queue, of iptables and of
    [cmd.Start()].  The other parameters have their defaults and the
    target specification resolves to 10.0.0.5. *)
Definition world (start : Z) (look : option Error)
    (q : QueueOp -> option Error) (fw : list string -> option Error)
    (spawn : StartResult) : World :=
  {| IntParam := fun k =>
       (None, if String.eqb k "rdp.proxy.port" then 3389
              else if String.eqb k "rdp.proxy.start" then start
              else 0);
     StringParam := fun k =>
       (None, if String.eqb k "rdp.proxy.command" then "pyrdp-mitm.py"
              else "10.0.0.5");
     ParseTargets := fun _ => ([(10, 0, 0, 5)%N], None);
     LookPath := fun _ => look;
     queueCall := q;
     coreExec := fun _ args => fw args;
     cmdStart := fun _ => spawn |}.

(** Everything works; agents get the given pid. *)
Definition fine (pid : Pid) : World :=
  world 40000 None (fun _ => None) (fun _ => None) (StartOk pid).

(** The operator asked for agents from port 50000 on. *)
Definition start_at_50000 : World :=
  world 50000 None (fun _ => None) (fun _ => None) (StartOk 4242).

(** The agent cannot be started. *)
Definition spawn_fails : World :=
  world 40000 None (fun _ => None) (fun _ => None)
        (StartErr "fork/exec pyrdp-mitm.py: permission denied").

(** iptables fails on every line. *)
Definition iptables_fails : World :=
  world 40000 None (fun _ => None) (fun _ => Some "exit status 1")
        (StartOk 4242).

(** The agent executable is not on the path. *)
Definition no_executable : World :=
  world 40000 (Some "executable file not found in $PATH")
        (fun _ => None) (fun _ => None) (StartOk 4242).

(** The queue cannot be put in packet-copy mode. *)
Definition set_mode_fails : World :=
  world 40000 None
        (fun op => match op with
                   | SetMode => Some "nfq_set_mode failed"
                   | _ => None
                   end)
        (fun _ => None) (StartOk 4242).

(** iptables fails when hooking the chain into PREROUTING. *)
Definition hook_fails : World :=
  world 40000 None (fun _ => None)
        (fun args => if rule_is "-I" "PREROUTING" args
                     then Some "exit status 1" else None)
        (StartOk 4242).

Definition attacker : IP := (10, 0, 0, 9)%N.
Definition target : IP := (10, 0, 0, 5)%N.
Definition bystander : IP := (10, 0, 0, 7)%N.

(** The module after a successful [Start] in the world [fine]. *)
Definition running : RdpProxy := st (Start (fine 4242) NewRdpProxy).

(** The layers of [syn attacker 4444 target dp]. *)
Definition to_target (dp : N) : Flow Endpoint * Flow Endpoint :=
  (mkFlow (IPv4 10 0 0 9) (IPv4 10 0 0 5), mkFlow (Port 4444) (Port dp)).




(** A started module with three sessions: the agents of 10.0.0.5:3389
    and 10.0.0.5:3391 run with the pids 1001 and 1002, the agent of
    10.0.0.5:3390 could not be started. *)
Definition crowded : RdpProxy :=
  st (run [ (fine 4242, CallStart);
            (fine 1001, CallPacket (syn attacker 4444 target 3389));
            (spawn_fails, CallPacket (syn attacker 4444 target 3390));
            (fine 1002, CallPacket (syn attacker 4444 target 3391)) ]
          NewRdpProxy).

(** A started module with one session, whose agent could not be
    started. *)
Definition jammed : RdpProxy :=
  st (run [ (fine 4242, CallStart);
            (spawn_fails, CallPacket (syn attacker 4444 target 3389)) ]
          NewRdpProxy).

End Wire.

(** * The packet parsers of the sniffer (modules/net_sniff_parsers.go)

    [mainParser] and the four parsers it dispatches to.  The protocol
    parsers they consult ([sniParser], [dnsParser], ...), the 802.11 side,
    the colouring helpers and the event constructor are not in this file:
    the answers of the former come from a [Sniffer], the latter are taken
    as they are called. *)

(** [gopacket.LayerType]: the four the parsers name, and any other by its
    number. *)
Inductive LayerType :=
| LayerTypeIPv4
| LayerTypeTCP
| LayerTypeUDP
| LayerTypeICMPv4
| LayerTypeOther (n : Z).

Definition LayerType_eqb (a b : LayerType) : bool :=
  match a, b with
  | LayerTypeIPv4, LayerTypeIPv4 => true
  | LayerTypeTCP, LayerTypeTCP => true
  | LayerTypeUDP, LayerTypeUDP => true
  | LayerTypeICMPv4, LayerTypeICMPv4 => true
  | LayerTypeOther n, LayerTypeOther k => Z.eqb n k
  | _, _ => false
  end.

(** What the parsers use of the packages around them: [net.IP] and its
    [String], the ports of TCP and UDP, [vIP] and [vPort], the time stamp
    of a packet, [core.W], [core.Dim] and the four colour codes, the
    [String] of a layer type. *)
Class SniffLib := {
  Addr : Type;
  Addr_String : Addr -> string;
  PortNo : Type;
  vIP : Addr -> string;
  vPort : PortNo -> string;
  Timestamp : Type;
  core_W : string -> string -> string;
  core_Dim : string -> string;
  BG_LBLUE : string;
  FG_BLACK : string;
  BG_DGRAY : string;
  FG_WHITE : string;
  LayerType_String : LayerType -> string
}.

Section Sniffer.

Context {SL : SniffLib}.

(** [layers.IPv4], [layers.TCP] and [layers.UDP], with the fields read. *)
Record IPv4Layer := mkIPv4 {
  SrcIP : Addr;
  DstIP : Addr;
  IPv4_Payload : list Byte.byte
}.

Record TCPLayer := mkTCP { TCP_SrcPort : PortNo; TCP_DstPort : PortNo }.
Record UDPLayer := mkUDP { UDP_SrcPort : PortNo; UDP_DstPort : PortNo }.

(** A [gopacket.Layer] by its dynamic type: one of the four types the
    parsers assert, or some other implementation, which reports the layer
    type it likes. *)
Inductive Layer :=
| IsIPv4 (ip : IPv4Layer)
| IsTCP (tcp : TCPLayer)
| IsUDP (udp : UDPLayer)
| IsICMPv4
| IsOther (t : LayerType).

Definition Layer_LayerType (l : Layer) : LayerType :=
  match l with
  | IsIPv4 _ => LayerTypeIPv4
  | IsTCP _ => LayerTypeTCP
  | IsUDP _ => LayerTypeUDP
  | IsICMPv4 => LayerTypeICMPv4
  | IsOther t => t
  end.

(** A [gopacket.Packet]: its layers, the two it singles out, and the time
    stamp of its metadata. *)
Record SniffPacket := mkSniffPacket {
  packet_layers : list Layer;
  packet_network : option Layer;
  packet_transport : option Layer;
  packet_time : Timestamp
}.

(** [pkt.Layer(t)]: the first layer of type [t], or nil. *)
Definition Packet_Layer (pkt : SniffPacket) (t : LayerType)
  : option Layer :=
  List.find (fun l => LayerType_eqb (Layer_LayerType l) t)
            (packet_layers pkt).

(** The arguments of one [NewSnifferEvent(...).Push()]: time, protocol,
    source, destination, the size in the data, the format and what is
    formatted with it. *)
Record Pushed := mkPushed {
  pushed_time : Timestamp;
  pushed_proto : string;
  pushed_src : string;
  pushed_dst : string;
  pushed_size : nat;
  pushed_format : string;
  pushed_args : list string
}.

Inductive SniffEvent :=
| SLog (msg : string)                       (* log.Debug *)
| SAsked (parser : string) (claimed : bool) (* a protocol parser *)
| SDot11 (verbose : bool)                   (* dot11Parser, as called *)
| SPush (e : Pushed).

(** The protocol parsers and the 802.11 parse, by their answers. *)
Record Sniffer := mkSniffer {
  sniParser : IPv4Layer -> SniffPacket -> TCPLayer -> bool;
  ntlmParser : IPv4Layer -> SniffPacket -> TCPLayer -> bool;
  httpParser : IPv4Layer -> SniffPacket -> TCPLayer -> bool;
  dnsParser : IPv4Layer -> SniffPacket -> UDPLayer -> bool;
  mdnsParser : IPv4Layer -> SniffPacket -> UDPLayer -> bool;
  krb5Parser : IPv4Layer -> SniffPacket -> UDPLayer -> bool;
  Dot11Parse : SniffPacket -> bool
}.

(** A parser returns a value, or panics, after the calls it made. *)
Record Out (A : Type) := mkOut {
  value : option A;
  events : list SniffEvent
}.
Arguments mkOut {A} _ _.
Arguments value {A} _.
Arguments events {A} _.

Definition done {A} (a : A) : Out A := mkOut (Some a) [].
Definition say (e : SniffEvent) : Out unit := mkOut (Some tt) [e].
Definition nil_dereference {A} : Out A := mkOut None [].

Definition and_then {A B} (o : Out A) (f : A -> Out B) : Out B :=
  match o with
  | mkOut None t => mkOut None t
  | mkOut (Some a) t =>
      match f a with
      | mkOut b t' => mkOut b (t ++ t')
      end
  end.

Notation "x <- m ;; k" := (and_then m (fun x => k))
  (at level 100, m at next level, k at level 200, right associativity).
Notation "m ;; k" := (and_then m (fun _ => k))
  (at level 100, k at level 200, right associativity).

(** A method call on a layer that may be nil. *)
Definition the_layer (o : option Layer) : Out Layer :=
  match o with
  | Some l => done l
  | None => nil_dereference
  end.

(** A field read through a [*layers.IPv4] that may be nil. *)
Definition the_header (o : option IPv4Layer) : Out IPv4Layer :=
  match o with
  | Some ip => done ip
  | None => nil_dereference
  end.

Definition ask (parser : string) (claimed : bool) : Out bool :=
  say (SAsked parser claimed) ;; done claimed.

(** [fmt.Sprintf("%d bytes", len(ip.Payload))] *)
Definition Sprintf_bytes (ip : IPv4Layer) : string :=
  Sprintf_d (Z.of_nat (length (IPv4_Payload ip))) ++ " bytes".

Definition tcpParser (w : Sniffer) (ip : IPv4Layer) (pkt : SniffPacket)
    (verbose : bool) : Out unit :=
  match Packet_Layer pkt LayerTypeTCP with
  | Some (IsTCP tcp) =>
      claimed <- ask "sni" (sniParser w ip pkt tcp) ;;
      if claimed then done tt else
      claimed <- ask "ntlm" (ntlmParser w ip pkt tcp) ;;
      if claimed then done tt else
      claimed <- ask "http" (httpParser w ip pkt tcp) ;;
      if claimed then done tt else
      if verbose then
        say (SPush
          {| pushed_time := packet_time pkt;
             pushed_proto := "tcp";
             pushed_src :=
               Addr_String (SrcIP ip) ++ ":" ++ vPort (TCP_SrcPort tcp);
             pushed_dst :=
               Addr_String (DstIP ip) ++ ":" ++ vPort (TCP_DstPort tcp);
             pushed_size := length (IPv4_Payload ip);
             pushed_format := "%s %s:%s > %s:%s %s";
             pushed_args :=
               [ core_W (BG_LBLUE ++ FG_BLACK) "tcp";
                 vIP (SrcIP ip); vPort (TCP_SrcPort tcp);
                 vIP (DstIP ip); vPort (TCP_DstPort tcp);
                 core_Dim (Sprintf_bytes ip) ] |})
      else done tt
  | _ => say (SLog "Could not parse TCP layer, skipping packet")
  end.

Definition udpParser (w : Sniffer) (ip : IPv4Layer) (pkt : SniffPacket)
    (verbose : bool) : Out unit :=
  match Packet_Layer pkt LayerTypeUDP with
  | Some (IsUDP udp) =>
      claimed <- ask "dns" (dnsParser w ip pkt udp) ;;
      if claimed then done tt else
      claimed <- ask "mdns" (mdnsParser w ip pkt udp) ;;
      if claimed then done tt else
      claimed <- ask "krb5" (krb5Parser w ip pkt udp) ;;
      if claimed then done tt else
      if verbose then
        say (SPush
          {| pushed_time := packet_time pkt;
             pushed_proto := "udp";
             pushed_src :=
               Addr_String (SrcIP ip) ++ ":" ++ vPort (UDP_SrcPort udp);
             pushed_dst :=
               Addr_String (DstIP ip) ++ ":" ++ vPort (UDP_DstPort udp);
             pushed_size := length (IPv4_Payload ip);
             pushed_format := "%s %s:%s > %s:%s %s";
             pushed_args :=
               [ core_W (BG_DGRAY ++ FG_WHITE) "udp";
                 vIP (SrcIP ip); vPort (UDP_SrcPort udp);
                 vIP (DstIP ip); vPort (UDP_DstPort udp);
                 core_Dim (Sprintf_bytes ip) ] |})
      else done tt
  | _ => say (SLog "Could not parse UDP layer, skipping packet")
  end.

(** The event of [icmpParser] and of [unkParser], which differ in where
    the layer type comes from. *)
Definition plain_event (ip : IPv4Layer) (pkt : SniffPacket)
    (layerType : string) : Pushed :=
  {| pushed_time := packet_time pkt;
     pushed_proto := layerType;
     pushed_src := vIP (SrcIP ip);
     pushed_dst := vIP (DstIP ip);
     pushed_size := length (IPv4_Payload ip);
     pushed_format := "%s %s > %s %s";
     pushed_args :=
       [ core_W (BG_DGRAY ++ FG_WHITE) layerType;
         vIP (SrcIP ip); vIP (DstIP ip);
         core_Dim (Sprintf_bytes ip) ] |}.

(** icmpParser logs ICMPv4 events when verbose, and does nothing
    otherwise.  Its [ip] is a pointer, which it reads through when it
    builds the event. *)
Definition icmpParser (ip : option IPv4Layer) (pkt : SniffPacket)
    (verbose : bool) : Out unit :=
  if verbose then
    icmp <- the_layer (Packet_Layer pkt LayerTypeICMPv4) ;;
    let layerType := LayerType_String (Layer_LayerType icmp) in
    ip <- the_header ip ;;
    say (SPush (plain_event ip pkt layerType))
  else done tt.

Definition unkParser (ip : option IPv4Layer) (pkt : SniffPacket)
    (verbose : bool) : Out unit :=
  if verbose then
    tl <- the_layer (packet_transport pkt) ;;
    ip <- the_header ip ;;
    say (SPush (plain_event ip pkt
                  (LayerType_String (Layer_LayerType tl))))
  else done tt.

Definition mainParser (w : Sniffer) (pkt : SniffPacket) (verbose : bool)
  : Out bool :=
  (* simple networking sniffing mode? *)
  match packet_network pkt with
  | Some nlayer =>
      if negb (LayerType_eqb (Layer_LayerType nlayer) LayerTypeIPv4) then
        say (SLog ("Unexpected layer type "
                   ++ LayerType_String (Layer_LayerType nlayer)
                   ++ ", skipping packet.")) ;;
        done false
      else
        match nlayer with
        | IsIPv4 ip =>
            match packet_transport pkt with
            | None =>
                match Packet_Layer pkt LayerTypeICMPv4 with
                | Some IsICMPv4 =>
                    icmpParser (Some ip) pkt verbose ;; done true
                | _ =>
                    say (SLog "Missing transport layer skipping packet.") ;;
                    done false
                end
            | Some tlayer =>
                (if LayerType_eqb (Layer_LayerType tlayer) LayerTypeTCP
                 then tcpParser w ip pkt verbose
                 else if LayerType_eqb (Layer_LayerType tlayer) LayerTypeUDP
                 then udpParser w ip pkt verbose
                 else unkParser (Some ip) pkt verbose) ;;
                done true
            end
        | _ =>
            say (SLog "Could not extract network layer, skipping packet") ;;
            done false
        end
  | None =>
      if Dot11Parse w pkt then
        (* are we sniffing in monitor mode? *)
        say (SDot11 verbose) ;; done true
      else done false
  end.

End Sniffer.

Arguments mkOut {SL A} _ _.
Arguments value {SL A} _.
Arguments events {SL A} _.

(** ** Reading what a parser did *)

Section SniffVocabulary.

Context {SL : SniffLib}.

(** The events pushed, and the protocol parsers asked with their answers,
    in order. *)
Definition pushes (t : list SniffEvent) : list Pushed :=
  flat_map (fun e => match e with SPush p => [p] | _ => [] end) t.

Definition asked (t : list SniffEvent) : list (string * bool) :=
  flat_map (fun e => match e with SAsked n b => [(n, b)] | _ => [] end) t.

(** A list of parsers with their answers, cut behind the first that
    claims the packet. *)
Fixpoint until_claimed (l : list (string * bool)) : list (string * bool) :=
  match l with
  | [] => []
  | (n, b) :: rest => (n, b) :: (if b then [] else until_claimed rest)
  end.

(** What is left of a run when the events pushed are taken out. *)
Definition unpushed (t : list SniffEvent) : list SniffEvent :=
  List.filter (fun e => match e with SPush _ => false | _ => true end) t.

(** The packet has an ICMPv4 layer of gopacket's own type. *)
Definition has_icmp (pkt : SniffPacket) : bool :=
  match Packet_Layer pkt LayerTypeICMPv4 with
  | Some IsICMPv4 => true
  | _ => false
  end.

(** The parser [mainParser] hands an IPv4 packet with a transport layer
    to. *)
Definition dispatched (w : Sniffer) (ip : IPv4Layer) (pkt : SniffPacket)
    (verbose : bool) (tl : Layer) : Out unit :=
  if LayerType_eqb (Layer_LayerType tl) LayerTypeTCP
  then tcpParser w ip pkt verbose
  else if LayerType_eqb (Layer_LayerType tl) LayerTypeUDP
  then udpParser w ip pkt verbose
  else unkParser (Some ip) pkt verbose.

(** What [mainParser] answers on a packet: an IPv4 packet with a
    transport layer or an ICMPv4 layer, or a packet without a network
    layer that parses as 802.11. *)
Definition accepted (w : Sniffer) (pkt : SniffPacket) : bool :=
  match packet_network pkt with
  | Some (IsIPv4 _) =>
      match packet_transport pkt with
      | Some _ => true
      | None => has_icmp pkt
      end
  | Some _ => false
  | None => Dot11Parse w pkt
  end.

End SniffVocabulary.

(** ** Packets for the examples *)

(** Addresses and ports print in decimal, colours are left out. *)
Module Capture.

#[export] Instance lib : SniffLib := {|
  Addr := Wire.IP;
  Addr_String := Wire.IP_String;
  PortNo := N;
  vIP := Wire.IP_String;
  vPort := Wire.Sprintf_N;
  Timestamp := Z;
  core_W := fun _ s => s;
  core_Dim := fun s => s;
  BG_LBLUE := "";
  FG_BLACK := "";
  BG_DGRAY := "";
  FG_WHITE := "";
  LayerType_String := fun t =>
    match t with
    | LayerTypeIPv4 => "IPv4"
    | LayerTypeTCP => "TCP"
    | LayerTypeUDP => "UDP"
    | LayerTypeICMPv4 => "ICMPv4"
    | LayerTypeOther _ => "Unknown"
    end
|}.

Definition header : IPv4Layer :=
  mkIPv4 (10, 0, 0, 9)%N (10, 0, 0, 5)%N [].

(** A packet of the layers [ls] behind the IPv4 header, as gopacket
    fills the two layers it singles out. *)
Definition over_ip (transport : option Layer) (ls : list Layer)
  : SniffPacket :=
  mkSniffPacket (IsIPv4 header :: ls) (Some (IsIPv4 header)) transport 0.

Definition tcp_segment : SniffPacket :=
  let tcp := IsTCP (mkTCP 4444%N 80%N) in over_ip (Some tcp) [tcp].

Definition udp_datagram : SniffPacket :=
  let udp := IsUDP (mkUDP 5353%N 53%N) in over_ip (Some udp) [udp].

(** SCTP, which has a transport layer the parsers do not know. *)
Definition sctp_packet : SniffPacket :=
  let sctp := IsOther (LayerTypeOther 44) in over_ip (Some sctp) [sctp].

Definition echo_request : SniffPacket := over_ip None [IsICMPv4].

(** A frame captured in monitor mode: no network layer. *)
Definition beacon : SniffPacket :=
  mkSniffPacket [IsOther (LayerTypeOther 23)] None None 0.

(** A parser set in which nobody claims anything but the parsers named. *)
Definition claims (names : list string) : Sniffer :=
  let says n := existsb (String.eqb n) names in
  {| sniParser := fun _ _ _ => says "sni";
     ntlmParser := fun _ _ _ => says "ntlm";
     httpParser := fun _ _ _ => says "http";
     dnsParser := fun _ _ _ => says "dns";
     mdnsParser := fun _ _ _ => says "mdns";
     krb5Parser := fun _ _ _ => says "krb5";
     Dot11Parse := fun _ => says "dot11" |}.

End Capture.

(** * Properties *)

Local Open Scope list_scope.

(** ** Running computations *)

Section Monad.

Context {L : PacketLib}.

Lemma bind_run {A B} (m : M A) (f : A -> M B) (s : RdpProxy) :
  bind m f s =
  match res (m s) with
  | None => mkRun None (st (m s)) (trace (m s))
  | Some a =>
      mkRun (res (f a (st (m s)))) (st (f a (st (m s))))
            (trace (m s) ++ trace (f a (st (m s))))
  end.
Proof.
  unfold bind. destruct (m s) as [[a|] s1 t1]; cbn; [|reflexivity].
  destruct (f a s1); reflexivity.
Qed.

Lemma post_bind {A B} (m : M A) (f : A -> M B) (s : RdpProxy)
    (Q : option B -> RdpProxy -> list Event -> Prop) :
  post m s (fun r s1 t1 =>
    match r with
    | None => Q None s1 t1
    | Some a => post (f a) s1 (fun r' s2 t2 => Q r' s2 (t1 ++ t2)%list)
    end) ->
  post (bind m f) s Q.
Proof.
  unfold post. rewrite bind_run. destruct (res (m s)); cbn; trivial.
Qed.

Lemma post_ret {A} (a : A) (s : RdpProxy)
    (Q : option A -> RdpProxy -> list Event -> Prop) :
  Q (Some a) s [] -> post (ret a) s Q.
Proof. trivial. Qed.

Lemma post_get (s : RdpProxy)
    (Q : option RdpProxy -> RdpProxy -> list Event -> Prop) :
  Q (Some s) s [] -> post get s Q.
Proof. trivial. Qed.

Lemma post_modify (f : RdpProxy -> RdpProxy) (s : RdpProxy)
    (Q : option unit -> RdpProxy -> list Event -> Prop) :
  Q (Some tt) (f s) [] -> post (modify f) s Q.
Proof. trivial. Qed.

Lemma post_emit (e : Event) (s : RdpProxy)
    (Q : option unit -> RdpProxy -> list Event -> Prop) :
  Q (Some tt) s [e] -> post (emit e) s Q.
Proof. trivial. Qed.

Lemma post_panic {A} (s : RdpProxy)
    (Q : option A -> RdpProxy -> list Event -> Prop) :
  Q None s [] -> post panic s Q.
Proof. trivial. Qed.

Lemma post_run {A} (m : M A) (s : RdpProxy) (r : Run A)
    (Q : option A -> RdpProxy -> list Event -> Prop) :
  m s = r -> Q (res r) (st r) (trace r) -> post m s Q.
Proof. intros <-. trivial. Qed.

Variable R : RdpProxy -> RdpProxy -> Prop.
Variable P : Event -> Prop.
Hypothesis R_refl : forall s, R s s.
Hypothesis R_trans : forall s1 s2 s3, R s1 s2 -> R s2 s3 -> R s1 s3.

Lemma obeys_ret {A} (a : A) : obeys R P (ret a).
Proof using R_refl R_trans.
  intros s. cbn. split; [apply R_refl | constructor]. Qed.

Lemma obeys_get : obeys R P get.
Proof using R_refl R_trans.
  intros s. cbn. split; [apply R_refl | constructor]. Qed.

Lemma obeys_panic {A} : obeys R P (@panic _ A).
Proof using R_refl R_trans.
  intros s. cbn. split; [apply R_refl | constructor]. Qed.

Lemma obeys_deref {A} (o : option A) : obeys R P (deref o).
Proof using R_refl R_trans.
  destruct o; [apply obeys_ret | apply obeys_panic]. Qed.

Lemma obeys_emit (e : Event) : P e -> obeys R P (emit e).
Proof using R_refl R_trans.
  intros He s. cbn. split; [apply R_refl | repeat constructor; exact He].
Qed.

Lemma obeys_modify (f : RdpProxy -> RdpProxy) :
  (forall s, R s (f s)) -> obeys R P (modify f).
Proof using R_refl R_trans.
  intros Hf s. cbn. split; [apply Hf | constructor]. Qed.

Lemma obeys_bind {A B} (m : M A) (f : A -> M B) :
  obeys R P m -> (forall a, obeys R P (f a)) -> obeys R P (bind m f).
Proof using R_refl R_trans.
  intros Hm Hf s. rewrite bind_run. destruct (Hm s) as [Hs Ht].
  destruct (res (m s)) as [a|]; cbn; [|split; assumption].
  destruct (Hf a (st (m s))) as [Hs' Ht']. split.
  - eapply R_trans; eassumption.
  - apply Forall_app; split; assumption.
Qed.

Lemma obeys_orelse (err : option Error) (k : M (option Error)) :
  obeys R P k -> obeys R P (orelse err k).
Proof using R_refl R_trans.
  intros Hk. destruct err; [apply obeys_ret | exact Hk]. Qed.

Lemma obeys_Exec (w : World) (name : string) (args : list string) :
  (forall err, P (EExec name args err)) -> obeys R P (Exec w name args).
Proof using R_refl R_trans.
  intros He.
  apply obeys_bind; [apply obeys_emit, He | intros _; apply obeys_ret].
Qed.

Lemma obeys_exec_rules (w : World) (lines : list (list string)) :
  (forall line err, In line lines -> P (EExec "iptables" line err)) ->
  obeys R P (exec_rules w lines).
Proof using R_refl R_trans.
  induction lines as [|line rest IH]; intros He; cbn [exec_rules].
  - apply obeys_ret.
  - apply obeys_bind.
    + apply obeys_Exec. intros err. apply He. left. reflexivity.
    + intros [e|]; [apply obeys_ret|]. apply IH.
      intros l err Hl. apply He. right. exact Hl.
Qed.

Lemma obeys_kill_all (cmds : list (string * Cmd)) :
  (forall p, P (EKill p)) -> obeys R P (kill_all cmds).
Proof using R_refl R_trans.
  intros Hk. induction cmds as [|[k c] rest IH]; cbn [kill_all].
  - apply obeys_ret.
  - apply obeys_bind; [apply obeys_deref | intros p].
    apply obeys_bind; [apply obeys_emit, Hk | intros _; exact IH].
Qed.

End Monad.

(** One step of a proof that a method obeys [R] and [P]: follow the shape
    of the method and leave the facts about single calls and updates. *)
Ltac obey Hrefl Htrans :=
  repeat first
    [ apply (obeys_ret _ _ Hrefl Htrans)
    | apply (obeys_get _ _ Hrefl Htrans)
    | apply (obeys_panic _ _ Hrefl Htrans)
    | apply (obeys_deref _ _ Hrefl Htrans)
    | apply (obeys_orelse _ _ Hrefl Htrans)
    | apply (obeys_bind _ _ Hrefl Htrans); [| intros ?]
    | apply (obeys_emit _ _ Hrefl Htrans)
    | apply (obeys_modify _ _ Hrefl Htrans); intros ?
    | match goal with
      | |- obeys _ _ (let '(_, _) := ?x in _) => destruct x
      | |- obeys _ _ (match ?x with _ => _ end) => destruct x
      end ].

(** Follow a run through its binds and primitives. *)
Ltac wp :=
  repeat (lazymatch goal with
          | |- post (bind _ _) _ _ => apply post_bind
          | |- post get _ _ => apply post_get
          | |- post (modify _) _ _ => apply post_modify
          | |- post (emit _) _ _ => apply post_emit
          | |- post (ret _) _ _ => apply post_ret
          | |- post panic _ _ => apply post_panic
          | |- post (deref (Some _)) _ _ => apply post_ret
          | |- post (deref None) _ _ => apply post_panic
          | |- post (Info _) _ _ => apply post_emit
          | |- post (Debug _) _ _ => apply post_emit
          | |- post (qcall _ _) _ _ => unfold qcall
          | |- post (Exec _ _ _) _ _ => unfold Exec
          | |- post (orelse (Some _) _) _ _ => apply post_ret
          | |- post (orelse None _) _ _ => unfold orelse
          end; cbn beta iota).

Section Handler.

Context {L : PacketLib}.

(** ** The four ways through [handleRdpConnection] *)

(** No network layer: the method call on the nil layer panics, before
    anything else is done. *)
Lemma handle_no_network (w : World) (payload : Payload) (m : RdpProxy) :
  NetworkLayer (NewPacket (Data payload)) = None ->
  handleRdpConnection w payload m = mkRun None m [].
Proof.
  intros Hn. unfold handleRdpConnection, bind. rewrite Hn. reflexivity.
Qed.

Lemma handle_no_transport (w : World) (payload : Payload) (m : RdpProxy) :
  TransportLayer (NewPacket (Data payload)) = None ->
  handleRdpConnection w payload m = mkRun None m [].
Proof.
  intros Ht. unfold handleRdpConnection, bind. rewrite Ht.
  destruct (NetworkLayer (NewPacket (Data payload))); reflexivity.
Qed.

(** The destination is no target. *)
Lemma handle_nontarget (w : World) (payload : Payload) (m : RdpProxy)
    (nl tl : Flow Endpoint) :
  NetworkLayer (NewPacket (Data payload)) = Some nl ->
  TransportLayer (NewPacket (Data payload)) = Some tl ->
  isTarget m (Endpoint_String (Dst nl)) = false ->
  let rule :=
    [ "-t"; "nat"; "-I"; "BCAPRDP"; "1"; "-p"; "tcp";
      "-d"; Endpoint_String (Dst nl);
      "--dport"; Endpoint_String (Dst tl); "-j"; "RETURN" ] in
  handleRdpConnection w payload m =
  mkRun (Some 0) m
    [ EInfo (nontarget_msg (Src nl) (Src tl) (Dst nl) (Dst tl));
      EExec "iptables" rule (coreExec w "iptables" rule);
      EVerdict NF_DROP ].
Proof.
  intros Hn Ht Hno. unfold handleRdpConnection, bind. rewrite Hn, Ht.
  cbn. rewrite Hno. reflexivity.
Qed.

(** The destination is a target that has its session. *)
Lemma handle_existing (w : World) (payload : Payload) (m : RdpProxy)
    (nl tl : Flow Endpoint) (c : Cmd) :
  NetworkLayer (NewPacket (Data payload)) = Some nl ->
  TransportLayer (NewPacket (Data payload)) = Some tl ->
  isTarget m (Endpoint_String (Dst nl)) = true ->
  active m !! Sprintf_target (Dst nl) (Dst tl) = Some c ->
  handleRdpConnection w payload m =
  mkRun (Some 0) m
    [ EInfo (connect_msg (Src nl) (Src tl) (Dst nl) (Dst tl));
      EVerdict NF_DROP ].
Proof.
  intros Hn Ht Hyes Hc. unfold handleRdpConnection, bind. rewrite Hn, Ht.
  cbn. rewrite Hyes. cbn. rewrite Hc. reflexivity.
Qed.

(** The destination is a target without a session. *)
Lemma handle_new (w : World) (payload : Payload) (m : RdpProxy)
    (nl tl : Flow Endpoint) :
  NetworkLayer (NewPacket (Data payload)) = Some nl ->
  TransportLayer (NewPacket (Data payload)) = Some tl ->
  isTarget m (Endpoint_String (Dst nl)) = true ->
  active m !! Sprintf_target (Dst nl) (Dst tl) = None ->
  let target := Sprintf_target (Dst nl) (Dst tl) in
  let c := agent m target in
  let rule :=
    [ "-t"; "nat"; "-I"; "BCAPRDP"; "1"; "-d"; Endpoint_String (Dst nl);
      "-p"; "tcp"; "--dport"; Sprintf_d (port m);
      "-j"; "REDIRECT"; "--to-ports"; Sprintf_d (startPort m) ] in
  handleRdpConnection w payload m =
  mkRun (Some 0)
    (set_startPort (wrap64 (startPort m + 1))
       (set_active (<[target := tracked w c]> (active m)) m))
    [ EInfo (connect_msg (Src nl) (Src tl) (Dst nl) (Dst tl));
      ECmdStart c (start_error w c);
      EExec "iptables" rule (coreExec w "iptables" rule);
      EVerdict NF_DROP ].
Proof.
  intros Hn Ht Hyes Hc. unfold handleRdpConnection, bind. rewrite Hn, Ht.
  cbn. rewrite Hyes. cbn. rewrite Hc. cbn.
  unfold Cmd_Start, tracked, start_error, agent, bind.
  destruct (cmdStart w _); reflexivity.
Qed.

End Handler.

(** ** What the life cycle leaves alone *)

Section Frames.

Context {L : PacketLib}.

Lemma same_sessions_refl (s : RdpProxy) : same_sessions s s.
Proof. split; reflexivity. Qed.

Lemma same_sessions_trans (s1 s2 s3 : RdpProxy) :
  same_sessions s1 s2 -> same_sessions s2 s3 -> same_sessions s1 s3.
Proof. intros [H1 H2] [H3 H4]. split; congruence. Qed.

Ltac frame :=
  obey same_sessions_refl same_sessions_trans;
  try solve [ exact I | split; reflexivity ].

Lemma destroyQueue_frame (w : World) :
  obeys same_sessions (fun _ => True) (destroyQueue w).
Proof.
  unfold destroyQueue, qcall. frame.
Qed.

Lemma configureFirewall_frame (w : World) (enable : bool) :
  obeys same_sessions (fun _ => True) (configureFirewall w enable).
Proof.
  unfold configureFirewall. frame.
  apply (obeys_exec_rules _ _ same_sessions_refl same_sessions_trans).
  intros; exact I.
Qed.

Lemma Configure_frame (w : World) :
  obeys same_sessions (fun _ => True) (Configure w).
Proof.
  unfold Configure, Info, Debug, qcall. frame;
    try apply destroyQueue_frame; try apply configureFirewall_frame.
Qed.

Lemma Start_frame (w : World) :
  obeys same_sessions (fun _ => True) (Start w).
Proof.
  unfold Start, SetRunning, worker_enter, Info, qcall. frame.
Qed.

Lemma Stop_frame (w : World) (order : list string) :
  obeys same_sessions (fun _ => True) (Stop w order).
Proof.
  unfold Stop, SetRunning, qcall. frame.
  apply (obeys_kill_all _ _ same_sessions_refl same_sessions_trans).
  intros p. exact I.
Qed.

Lemma wrap64_succ (z : Z) : wrap64 (wrap64 z + 1) = wrap64 (z + 1).
Proof.
  unfold wrap64. f_equal.
  replace ((z + 2 ^ 63) mod 2 ^ 64 - 2 ^ 63 + 1 + 2 ^ 63)
    with ((z + 2 ^ 63) mod 2 ^ 64 + 1) by lia.
  replace (z + 1 + 2 ^ 63) with (z + 2 ^ 63 + 1) by lia.
  apply Zplus_mod_idemp_l.
Qed.

Lemma wrap64_small (z : Z) :
  - 2 ^ 63 <= z < 2 ^ 63 -> wrap64 z = z.
Proof.
  intros Hz. unfold wrap64. rewrite Z.mod_small; lia.
Qed.

Lemma cursor_counts_same (s s' : RdpProxy) :
  same_sessions s s' -> cursor_counts s -> cursor_counts s'.
Proof.
  unfold cursor_counts. intros [Ha Hp] Hs. rewrite Ha, Hp. exact Hs.
Qed.

(** The callback keeps the cursor in step with the session map. *)
Lemma handle_cursor_counts (w : World) (payload : Payload) (m : RdpProxy) :
  cursor_counts m -> cursor_counts (st (handleRdpConnection w payload m)).
Proof.
  intros Hm.
  destruct (NetworkLayer (NewPacket (Data payload))) as [nl|] eqn:Hn.
  2: { rewrite (handle_no_network _ payload m Hn). exact Hm. }
  destruct (TransportLayer (NewPacket (Data payload))) as [tl|] eqn:Ht.
  2: { rewrite (handle_no_transport _ payload m Ht). exact Hm. }
  destruct (isTarget m (Endpoint_String (Dst nl))) eqn:Hyes.
  - destruct (active m !! Sprintf_target (Dst nl) (Dst tl)) as [c|] eqn:Hc.
    + rewrite (handle_existing _ payload m nl tl c Hn Ht Hyes Hc). exact Hm.
    + rewrite (handle_new _ payload m nl tl Hn Ht Hyes Hc).
      unfold cursor_counts in *. cbn [st startPort active set_startPort
        set_active].
      rewrite (map_size_insert_None _ _ _ Hc), Hm, wrap64_succ.
      f_equal. lia.
  - rewrite (handle_nontarget _ payload m nl tl Hn Ht Hyes). exact Hm.
Qed.

Lemma call_cursor_counts (w : World) (c : Call) (m : RdpProxy) :
  cursor_counts m -> cursor_counts (st (call w c m)).
Proof.
  intros Hm. destruct c as [|order| |payload]; cbn [call worker_exit];
    rewrite ?bind_run.
  - pose proof (proj1 (Start_frame w m)) as Hf.
    destruct (res (Start w m)); cbn [st ret];
      exact (cursor_counts_same _ _ Hf Hm).
  - pose proof (proj1 (Stop_frame w order m)) as Hf.
    destruct (res (Stop w order m)); cbn [st ret];
      exact (cursor_counts_same _ _ Hf Hm).
  - pose proof (proj1 (destroyQueue_frame w m)) as Hf.
    exact (cursor_counts_same _ _ Hf Hm).
  - unfold OnRDPConnection.
    pose proof (handle_cursor_counts w payload m Hm) as Hf.
    destruct (res (handleRdpConnection w payload m)); cbn [st ret];
      exact Hf.
Qed.

Lemma run_cursor_counts (calls : list (World * Call)) (m : RdpProxy) :
  cursor_counts m -> cursor_counts (st (run calls m)).
Proof.
  revert m. induction calls as [|[w c] rest IH]; intros m Hm; cbn [run].
  - exact Hm.
  - rewrite bind_run. pose proof (call_cursor_counts w c m Hm) as Hc.
    destruct (res (call w c m)); cbn [st]; [apply IH|]; exact Hc.
Qed.

(** In every module that can be reached from a fresh one the cursor is
    40000 plus the number of sessions made: the Nth session listens on
    40000 + (N - 1). *)
Lemma reachable_cursor_counts (m : RdpProxy) :
  reachable m -> cursor_counts m.
Proof.
  intros [calls ->]. apply run_cursor_counts.
  unfold cursor_counts. cbn. rewrite map_size_empty. reflexivity.
Qed.

(** Short of 2^63 sessions the cursor is 40000 plus their number. *)
Lemma reachable_cursor_exact (m : RdpProxy) :
  reachable m ->
  40000 + Z.of_nat (size (active m)) < 2 ^ 63 ->
  startPort m = 40000 + Z.of_nat (size (active m)).
Proof.
  intros Hreach Hsmall. rewrite (reachable_cursor_counts m Hreach).
  apply wrap64_small. lia.
Qed.

End Frames.


(** ** Stop *)

Section Stopping.

Context {L : PacketLib}.

Lemma Exec_run (w : World) (name : string) (args : list string)
    (s : RdpProxy) :
  Exec w name args s =
  mkRun (Some (coreExec w name args)) s
        [EExec name args (coreExec w name args)].
Proof. reflexivity. Qed.

(** Running iptables lines neither panics nor touches the module. *)
Lemma exec_rules_run (w : World) (lines : list (list string))
    (s : RdpProxy) :
  exists err tr,
    exec_rules w lines s = mkRun (Some err) s tr /\
    Forall (fun e => is_exec e = true) tr.
Proof.
  induction lines as [|line rest IH]; cbn [exec_rules].
  - exists None, []. split; [reflexivity | constructor].
  - unfold Exec. cbn.
    destruct (coreExec w "iptables" line) as [e|] eqn:He; cbn.
    + eexists _, _. split; [reflexivity | repeat constructor].
    + destruct IH as (err & tr & -> & Htr). cbn.
      eexists _, _. split; [reflexivity | constructor; [reflexivity | exact Htr]].
Qed.

Lemma configureFirewall_run (w : World) (enable : bool) (s : RdpProxy) :
  exists err tr,
    configureFirewall w enable s = mkRun (Some err) s tr /\
    Forall (fun e => is_exec e = true) tr.
Proof.
  unfold configureFirewall. cbn. 
  destruct (exec_rules_run w (firewall_rules s enable) s)
    as (err & tr & -> & Htr).
  cbn. eauto.
Qed.


Lemma killed_execs (tr : list Event) :
  Forall (fun e => is_exec e = true) tr -> killed tr = [].
Proof.
  induction 1 as [|e tr He _ IH]; [reflexivity|].
  destruct e; try discriminate. exact IH.
Qed.

Lemma killed_app (t1 t2 : list Event) :
  killed (t1 ++ t2)%list = (killed t1 ++ killed t2)%list.
Proof. apply flat_map_app. Qed.

Lemma killed_cons (e : Event) (t : list Event) :
  killed (e :: t) = (killed [e] ++ killed t)%list.
Proof. apply (killed_app [e] t). Qed.


(** The loop visits every session, once, whatever the order. *)
Lemma range_over_perm (order : list string) (a : gmap string Cmd) :
  Permutation (range_over order a) (map_to_list a).
Proof.
  revert a. induction order as [|k rest IH]; intros a; cbn [range_over].
  - reflexivity.
  - destruct (a !! k) as [c|] eqn:Hk; [|apply IH].
    rewrite IH. apply map_to_list_delete. exact Hk.
Qed.

(** And every order of the sessions is the order of some loop. *)
Lemma range_over_any (l : list (string * Cmd)) (a : gmap string Cmd) :
  Permutation l (map_to_list a) ->
  range_over (List.map fst l) a = l.
Proof.
  revert a. induction l as [|[k c] l IH]; intros a Hperm;
    cbn [List.map fst range_over].
  - apply Permutation_nil. exact Hperm.
  - assert (Hk : a !! k = Some c).
    { apply elem_of_map_to_list, list_elem_of_In.
      eapply Permutation_in; [exact Hperm | left; reflexivity]. }
    rewrite Hk. f_equal. apply IH.
    apply (Permutation_cons_inv (a := (k, c))).
    rewrite Hperm. symmetry. apply map_to_list_delete. exact Hk.
Qed.

Lemma range_over_lookup (order : list string) (a : gmap string Cmd)
    (k : string) (c : Cmd) :
  In (k, c) (range_over order a) <-> a !! k = Some c.
Proof.
  split; intros H.
  - apply elem_of_map_to_list, list_elem_of_In.
    eapply Permutation_in; [apply range_over_perm | exact H].
  - apply elem_of_map_to_list, list_elem_of_In in H.
    eapply Permutation_in; [symmetry; apply range_over_perm | exact H].
Qed.




(** The kill loop panics at the first command without a process. *)
Lemma kill_all_panics (cmds : list (string * Cmd)) (s : RdpProxy) :
  Exists (fun kc => Process (snd kc) = None) cmds ->
  exists ps, kill_all cmds s = mkRun None s (List.map EKill ps).
Proof.
  induction cmds as [|[k c] rest IH]; intros Hex.
  - inversion Hex.
  - cbn [kill_all]. destruct (Process c) as [p|] eqn:Hp.
    + assert (Hrest : Exists (fun kc => Process (snd kc) = None) rest).
      { inversion Hex as [? ? H|? ? H]; subst; [|exact H].
        cbn in H. congruence. }
      destruct (IH Hrest) as [ps Hps].
      exists (p :: ps). unfold bind at 1. cbn [deref ret].
      unfold bind at 1. cbn [emit]. rewrite Hps. reflexivity.
    + exists []. reflexivity.
Qed.

(** [Stop] on a running module one of whose tracked commands holds no
    process: the loop is told to stop, the firewall lines are run, and the
    kill loop panics when it comes to that command. *)
Lemma Stop_panics (w : World) (order : list string) (m : RdpProxy)
    (k : string) (c : Cmd) :
  Running m = true ->
  queue m <> None ->
  active m !! k = Some c ->
  Process c = None ->
  exists err fw ps,
    configureFirewall w false (set_Running false m)
    = mkRun (Some err) (set_Running false m) fw /\
    Forall (fun e => is_exec e = true) fw /\
    kill_all (range_over order (active m)) (set_Running false m)
    = mkRun None (set_Running false m) (List.map EKill ps) /\
    Stop w order m =
    mkRun None (set_Running false m)
      (EQueue StopLoop (queueCall w StopLoop) :: fw ++ List.map EKill ps).
Proof.
  intros Hrun Hq Hk Hc.
  destruct (configureFirewall_run w false (set_Running false m))
    as (err & fw & Hfw & Hexec).
  destruct (kill_all_panics (range_over order (active m))
              (set_Running false m)) as [ps Hps].
  { apply List.Exists_exists. exists (k, c). split; [|exact Hc].
    apply range_over_lookup. exact Hk. }
  exists err, fw, ps. split; [exact Hfw|]. split; [exact Hexec|].
  split; [exact Hps|].
  enough (H : post (Stop w order) m (fun r s t =>
    r = None /\ s = set_Running false m /\
    t = EQueue StopLoop (queueCall w StopLoop) :: fw ++ List.map EKill ps)).
  { unfold post in H. destruct H as (Hr & Hs & Ht).
    destruct (Stop w order m) as [r s t]. cbn [res st trace] in *.
    congruence. }
  destruct (queue m) as [q|] eqn:Hq'; [clear Hq|congruence].
  unfold Stop, SetRunning. wp. rewrite Hrun. cbn [Bool.eqb]. wp.
  cbn [set_Running queue]. rewrite Hq'. wp.
  eapply post_run; [exact Hfw|]. cbn [res st trace]. wp.
  eapply post_run; [exact Hps|]. cbn [res st trace].
  split; [reflexivity|]. split; [reflexivity|].
  cbn [app]. rewrite ?app_nil_r. reflexivity.
Qed.

(** The kill loop makes no call but kills, whether it panics or not. *)
Lemma kill_all_kills (cmds : list (string * Cmd)) (s : RdpProxy) :
  exists r ps, kill_all cmds s = mkRun r s (List.map EKill ps).
Proof.
  induction cmds as [|[k c] rest IH].
  - exists (Some tt), []. reflexivity.
  - cbn [kill_all]. destruct (Process c) as [p|].
    + destruct IH as (r & ps & IH). exists r, (p :: ps).
      unfold bind at 1. cbn [deref ret].
      unfold bind at 1. cbn [emit]. rewrite IH. reflexivity.
    + exists None, []. reflexivity.
Qed.

Lemma rules_app (t1 t2 : list Event) :
  rules (t1 ++ t2) = rules t1 ++ rules t2.
Proof. apply flat_map_app. Qed.

Lemma rules_kills (ps : list Pid) : rules (List.map EKill ps) = [].
Proof. induction ps as [|p ps IH]; [reflexivity | exact IH]. Qed.

(** The lines [configureFirewall(false)] runs: the chain is unhooked,
    then emptied, then deleted, as far as iptables goes along. *)
Lemma configureFirewall_false_rules (w : World) (s : RdpProxy) :
  rules (trace (configureFirewall w false s)) =
  [ "-t"; "nat"; "-D"; "PREROUTING"; "-j"; "BCAPRDP" ]
  :: match coreExec w "iptables"
             [ "-t"; "nat"; "-D"; "PREROUTING"; "-j"; "BCAPRDP" ] with
     | Some _ => []
     | None =>
         [ "-t"; "nat"; "-F"; "BCAPRDP" ]
         :: match coreExec w "iptables" [ "-t"; "nat"; "-F"; "BCAPRDP" ] with
            | Some _ => []
            | None => [ [ "-t"; "nat"; "-X"; "BCAPRDP" ] ]
            end
     end.
Proof.
  unfold configureFirewall. rewrite bind_run.
  cbn [get res st trace firewall_rules exec_rules].
  rewrite bind_run, Exec_run. cbn [res st trace].
  destruct (coreExec w "iptables"
              [ "-t"; "nat"; "-D"; "PREROUTING"; "-j"; "BCAPRDP" ]);
    [reflexivity|].
  rewrite bind_run, Exec_run. cbn [res st trace].
  destruct (coreExec w "iptables" [ "-t"; "nat"; "-F"; "BCAPRDP" ]);
    [reflexivity|].
  rewrite bind_run, Exec_run. cbn [res st trace].
  destruct (coreExec w "iptables" [ "-t"; "nat"; "-X"; "BCAPRDP" ]);
    reflexivity.
Qed.

(** [Stop] on a running module runs the lines of
    [configureFirewall(false)] and no other, whether its kill loop gets
    through or panics. *)
Lemma Stop_rules (w : World) (order : list string) (m : RdpProxy) :
  Running m = true ->
  queue m <> None ->
  rules (trace (Stop w order m))
  = rules (trace (configureFirewall w false m)).
Proof.
  intros Hrun Hq.
  destruct (configureFirewall_run w false (set_Running false m))
    as (err & fw & Hfw & Hexec).
  destruct (kill_all_kills (range_over order (active m))
              (set_Running false m)) as (r & ps & Hps).
  rewrite (configureFirewall_false_rules w m),
    <- (configureFirewall_false_rules w (set_Running false m)), Hfw.
  cbn [trace].
  change (post (Stop w order) m (fun _ _ t => rules t = rules fw)).
  destruct (queue m) as [q|] eqn:Hq'; [clear Hq|congruence].
  unfold Stop, SetRunning. wp. rewrite Hrun. cbn [Bool.eqb]. wp.
  cbn [set_Running queue]. rewrite Hq'. wp.
  eapply post_run; [exact Hfw|]. cbn [res st trace]. wp.
  eapply post_run; [exact Hps|]. cbn [res st trace].
  destruct r as [[]|]; try wp; cbn [app]; rewrite ?app_nil_r;
    change (rules (fw ++ List.map EKill ps) = rules fw);
    rewrite rules_app, rules_kills, app_nil_r; reflexivity.
Qed.


End Stopping.

(** ** The packet callback *)

Section Callback.

Context {L : PacketLib}.

(** [isTarget] is membership of the printed address among the printed
    addresses of the target set. *)
Lemma isTarget_spec (m : RdpProxy) (ip : string) :
  isTarget m ip = true <-> In ip (List.map IP_String (addresses m)).
Proof.
  unfold isTarget. induction (addresses m) as [|addr rest IH]; cbn.
  - split; [discriminate | tauto].
  - destruct (String.eqb_spec (IP_String addr) ip) as [Heq|Hne].
    + split; [auto | reflexivity].
    + rewrite IH. split; [auto | intros [?|?]; [contradiction | assumption]].
Qed.


(** On each of its three branches the callback sets one verdict, drop,
    and returns 0. *)
Lemma handle_decoded_drops (w : World) (payload : Payload) (m : RdpProxy)
    (nl tl : Flow Endpoint) :
  decodes payload nl tl ->
  let r := handleRdpConnection w payload m in
  res r = Some 0 /\ verdicts (trace r) = [NF_DROP].
Proof.
  intros [Hn Ht].
  destruct (isTarget m (Endpoint_String (Dst nl))) eqn:Hyes.
  - destruct (active m !! Sprintf_target (Dst nl) (Dst tl)) as [c|] eqn:Hc.
    + cbv zeta. rewrite (handle_existing w payload m nl tl c Hn Ht Hyes Hc).
      split; reflexivity.
    + cbv zeta. rewrite (handle_new w payload m nl tl Hn Ht Hyes Hc).
      split; reflexivity.
  - cbv zeta. rewrite (handle_nontarget w payload m nl tl Hn Ht Hyes).
    split; reflexivity.
Qed.

(** C2.  A packet that decodes to no network layer, or to no transport
    layer, is not handled: the callback panics on the nil layer at its
    first statement, so that no verdict is set (and nothing else is
    done).  The specification wants such a packet dropped without a
    crash. *)
Theorem packet_without_layer_panics (w : World) (payload : Payload)
    (m : RdpProxy) :
  NetworkLayer (NewPacket (Data payload)) = None \/
  TransportLayer (NewPacket (Data payload)) = None ->
  let r := handleRdpConnection w payload m in
  res r = None /\ verdicts (trace r) = [] /\ trace r = [] /\ st r = m.
Proof.
  intros [Hn|Ht]; cbv zeta.
  - rewrite (handle_no_network w payload m Hn). repeat split.
  - rewrite (handle_no_transport w payload m Ht). repeat split.
Qed.



(** C6.  When the agent cannot be started, the callback goes on as if it
    had been: it runs the redirect line to the port nobody listens on,
    keeps the command, which has no process, as the session of the
    endpoint, moves the cursor and logs nothing about the failure. *)
Theorem failed_spawn_still_redirects (w : World) (payload : Payload)
    (m : RdpProxy) (nl tl : Flow Endpoint) (e : Error) :
  decodes payload nl tl ->
  In (Endpoint_String (Dst nl)) (List.map IP_String (addresses m)) ->
  let key := Sprintf_target (Dst nl) (Dst tl) in
  active m !! key = None ->
  cmdStart w (agent m key) = StartErr e ->
  let r := handleRdpConnection w payload m in
  spawned (trace r) = [agent m key] /\
  rules (trace r) =
    [ [ "-t"; "nat"; "-I"; "BCAPRDP"; "1";
        "-d"; Endpoint_String (Dst nl); "-p"; "tcp";
        "--dport"; Sprintf_d (port m); "-j"; "REDIRECT";
        "--to-ports"; Sprintf_d (startPort m) ] ] /\
  active (st r) !! key = Some (agent m key) /\
  Process (agent m key) = None /\
  startPort (st r) = wrap64 (startPort m + 1) /\
  logs (trace r) =
    [ EInfo (connect_msg (Src nl) (Src tl) (Dst nl) (Dst tl)) ] /\
  verdicts (trace r) = [NF_DROP] /\
  res r = Some 0.
Proof.
  intros [Hn Ht] Hin key Hc Hfail. apply isTarget_spec in Hin. cbv zeta.
  rewrite (handle_new w payload m nl tl Hn Ht Hin Hc).
  fold key. unfold tracked. rewrite Hfail. cbn.
  rewrite lookup_insert_eq. repeat split.
Qed.

(** The callback does not look at what [core.Exec] answers. *)
Lemma handle_forgets_exec (w w' : World) (payload : Payload)
    (m : RdpProxy) :
  (forall c, cmdStart w' c = cmdStart w c) ->
  let r := handleRdpConnection w payload m in
  let r' := handleRdpConnection w' payload m in
  res r' = res r /\ st r' = st r /\
  List.map forget_exec_answer (trace r') =
  List.map forget_exec_answer (trace r).
Proof.
  intros Hsame. cbv zeta.
  destruct (NetworkLayer (NewPacket (Data payload))) as [nl|] eqn:Hn.
  2: { rewrite !(handle_no_network _ payload m Hn). repeat split. }
  destruct (TransportLayer (NewPacket (Data payload))) as [tl|] eqn:Ht.
  2: { rewrite !(handle_no_transport _ payload m Ht). repeat split. }
  destruct (isTarget m (Endpoint_String (Dst nl))) eqn:Hyes.
  - destruct (active m !! Sprintf_target (Dst nl) (Dst tl)) as [c|] eqn:Hc.
    + rewrite !(handle_existing _ payload m nl tl c Hn Ht Hyes Hc).
      repeat split.
    + rewrite !(handle_new _ payload m nl tl Hn Ht Hyes Hc).
      unfold tracked, start_error. rewrite Hsame. repeat split.
  - rewrite !(handle_nontarget _ payload m nl tl Hn Ht Hyes). repeat split.
Qed.

Lemma logs_forget (tr : list Event) :
  logs (List.map forget_exec_answer tr) = logs tr.
Proof.
  unfold logs. induction tr as [|e tr IH]; [reflexivity|].
  destruct e; cbn; rewrite ?IH; reflexivity.
Qed.

(** C5, as the code has it.  The answer of the firewall command of a
    redirect or exempt call is discarded: in two worlds that differ only
    in what iptables answers, the callback returns the same value, leaves
    the same module, makes the same calls and logs the same lines, so a
    failure shows nowhere; and it returns 0 for every packet that decodes,
    whatever iptables answered, so the receive loop goes on. *)
Theorem exec_answer_is_discarded (w w' : World) (payload : Payload)
    (m : RdpProxy) :
  (forall c, cmdStart w' c = cmdStart w c) ->
  let r := handleRdpConnection w payload m in
  let r' := handleRdpConnection w' payload m in
  res r' = res r /\ st r' = st r /\
  List.map forget_exec_answer (trace r') =
  List.map forget_exec_answer (trace r) /\
  reports r' = reports r /\
  (forall nl tl, decodes payload nl tl -> res r' = Some 0).
Proof.
  intros Hsame. cbv zeta.
  destruct (handle_forgets_exec w w' payload m Hsame) as (Hres & Hst & Htr).
  repeat split; try assumption.
  - unfold reports. rewrite Hres. f_equal.
    rewrite <- (logs_forget (trace (handleRdpConnection w' payload m))).
    rewrite Htr. apply logs_forget.
  - intros nl tl Hdec.
    apply (handle_decoded_drops w' payload m nl tl Hdec).
Qed.

End Callback.

(** ** The firewall lines of the module *)

Section Firewall.

Context {L : PacketLib}.

Lemma anything_refl (s : RdpProxy) : anything s s.
Proof. exact I. Qed.

Lemma anything_trans (s1 s2 s3 : RdpProxy) :
  anything s1 s2 -> anything s2 s3 -> anything s1 s3.
Proof. intros _ _. exact I. Qed.

Ltac lines :=
  obey anything_refl anything_trans;
  try solve [ exact I | reflexivity ].










End Firewall.

(** ** Start *)

Section Starting.

Context {L : PacketLib}.

Lemma destroyQueue_run (w : World) (m : RdpProxy) :
  destroyQueue w m =
  mkRun (Some tt) (set_queue None m)
    (match queue m with
     | Some _ => [ EQueue DestroyQueue (queueCall w DestroyQueue);
                   EQueue Close (queueCall w Close) ]
     | None => []
     end).
Proof.
  destruct m as [run q qn pt sp cm ac ad]. unfold destroyQueue. cbn.
  destruct q; reflexivity.
Qed.

(** Follow [Configure] through the answers of the world. *)
Ltac answers :=
  repeat (wp; cbv zeta;
          cbn [fst snd cmd queueNum addresses set_cmd set_queueNum set_port
               set_addresses set_queue firewall_rules exec_rules];
          try lazymatch goal with
              | |- post (let '(_, _) := ?x in _) _ _ => destruct x as [? ?]
              | |- post (orelse ?e _) _ _ => destruct e
              | |- post (match ?x with _ => _ end) _ _ => destruct x eqn:?
              | |- post (configureFirewall _ _) _ _ => unfold configureFirewall
              end).

Lemma Configure_fails (w : World) (m : RdpProxy) (e : Error) :
  res (Configure w m) = Some (Some e) ->
  Running (st (Configure w m)) = Running m /\
  exists rest,
    trace (Configure w m) = trace (destroyQueue w m) ++ rest /\
    Forall (fun ev => is_teardown ev = false) rest /\
    match validation_error w with
    | Some e' => e' = e /\ rest = [] /\ queue (st (Configure w m)) = None
    | None => queue (st (Configure w m)) = Some new_Queue
    end.
Proof.
  revert e.
  change (post (Configure w) m (fun r s t => forall e,
    r = Some (Some e) ->
    Running s = Running m /\
    exists rest,
      t = trace (destroyQueue w m) ++ rest /\
      Forall (fun ev => is_teardown ev = false) rest /\
      match validation_error w with
      | Some e' => e' = e /\ rest = [] /\ queue s = None
      | None => queue s = Some new_Queue
      end)).
  rewrite destroyQueue_run. cbn [trace]. unfold validation_error, Configure.
  apply post_bind. eapply post_run; [apply destroyQueue_run|].
  cbn [res st trace].
  set (pre := match queue m with Some _ => _ | None => [] end).
  answers.
  all: intros e0 Heq; try discriminate Heq; injection Heq as <-.
  all: split; [reflexivity|]; eexists; split; [reflexivity|].
  all: cbn [app]; repeat split; repeat constructor.
Qed.

(** When [Configure] fails, [Start] is [Configure]. *)
Lemma Start_fails (w : World) (m : RdpProxy) (e : Error) :
  Running m = false ->
  res (Configure w m) = Some (Some e) ->
  Start w m = Configure w m.
Proof.
  intros Hrun Hres. unfold Start. rewrite bind_run. cbn [get res st trace].
  rewrite Hrun, bind_run, Hres. cbn.
  destruct (Configure w m) as [r s t]. cbn in *. subst r.
  rewrite app_nil_r. reflexivity.
Qed.

(** C7, as the code has it.  When a step of [Configure] fails, [Start]
    returns the error and the module stays stopped, and nothing is taken
    down: after the [destroyQueue] that opens [Configure] there is no call
    that destroys or closes the queue, unhooks, empties or deletes the
    chain.  That [destroyQueue] makes no call on a module without a queue
    handle, and destroys and closes the queue of a module that holds one,
    as a failed [Start] can leave it.  If the failing step is one of the
    checks (a parameter, the target specification, the lookup of the
    executable), nothing has been set up: apart from that [destroyQueue]
    no call is made, and the module holds no queue handle.  If it is a
    queue call or a firewall line, the module keeps the queue handle it
    created. *)
Theorem failed_start_undoes_nothing (w : World) (m : RdpProxy)
    (e : Error) :
  Running m = false ->
  res (Configure w m) = Some (Some e) ->
  let r := Start w m in
  res r = Some (Some e) /\
  Running (st r) = false /\
  trace (destroyQueue w m) =
    match queue m with
    | Some _ => [ EQueue DestroyQueue (queueCall w DestroyQueue);
                  EQueue Close (queueCall w Close) ]
    | None => []
    end /\
  exists rest,
    trace r = trace (destroyQueue w m) ++ rest /\
    Forall (fun ev => is_teardown ev = false) rest /\
    match validation_error w with
    | Some e' => e' = e /\ rest = [] /\ queue (st r) = None
    | None => queue (st r) = Some new_Queue
    end.
Proof.
  intros Hrun Hres. cbv zeta. rewrite (Start_fails w m e Hrun Hres).
  destruct (Configure_fails w m e Hres) as (Hr & rest & Ht & Hf & Hq).
  split; [exact Hres|]. split; [congruence|].
  split; [rewrite destroyQueue_run; reflexivity|].
  exists rest. auto.
Qed.

End Starting.

(** ** A second run *)

Section Rerun.

Context {L : PacketLib}.



(** C9, where the code departs.  [Stop] does not kill every tracked
    agent process: a session whose agent could not be started holds a
    command without a process (C6), and [cmd.Process.Kill()] on it panics.
    Whatever the order of the loop, [Stop] then does not return; when the
    loop comes to that session first, no process is killed at all, and the
    agents of the other sessions go on running.  The sessions and the
    cursor are left as they were. *)
Theorem stop_leaves_agents_running (w : World) (order : list string)
    (m : RdpProxy) (k k' : string) (c c' : Cmd) (p : Pid) :
  Running m = true ->
  queue m <> None ->
  active m !! k = Some c -> Process c = None ->
  active m !! k' = Some c' -> Process c' = Some p ->
  let stopped := Stop w (k :: order) m in
  res stopped = None /\
  killed (trace stopped) = [] /\
  ~ In p (killed (trace stopped)) /\
  (forall order', res (Stop w order' m) = None) /\
  active (st stopped) = active m /\
  startPort (st stopped) = startPort m.
Proof.
  intros Hrun Hq Hk Hc Hk' Hc'. cbv zeta.
  assert (Hall : forall order', res (Stop w order' m) = None).
  { intros order'.
    destruct (Stop_panics w order' m k c Hrun Hq Hk Hc)
      as (err & fw & ps & _ & _ & _ & ->). reflexivity. }
  destruct (Stop_panics w (k :: order) m k c Hrun Hq Hk Hc)
    as (err & fw & ps & _ & Hexec & Hkill & ->).
  cbn [range_over] in Hkill. rewrite Hk in Hkill.
  cbn [kill_all] in Hkill. rewrite Hc in Hkill.
  assert (Hps : ps = []).
  { destruct ps as [|p' ps]; [reflexivity|]. cbn in Hkill. discriminate. }
  subst ps. cbn [res st trace List.map].
  rewrite app_nil_r.
  assert (Hnone : killed (EQueue StopLoop (queueCall w StopLoop) :: fw) = []).
  { rewrite killed_cons, (killed_execs fw Hexec). reflexivity. }
  rewrite Hnone.
  split; [reflexivity|]. split; [reflexivity|].
  split; [intros []|]. split; [exact Hall|]. split; reflexivity.
Qed.


End Rerun.

(** * More about the module *)

(** ** Targets, queue and firewall *)

Section Helpers.

Context {L : PacketLib}.

(** X1.  [isTarget] answers true exactly for the strings that are the
    printed form of one of the module's addresses; with no address it
    answers false to everything. *)
Theorem isTarget_iff_listed (m : RdpProxy) (ip : string) :
  (isTarget m ip = true <->
   exists addr, In addr (addresses m) /\ IP_String addr = ip) /\
  (addresses m = [] -> isTarget m ip = false).
Proof.
  split.
  - rewrite isTarget_spec, in_map_iff.
    split; intros (addr & H1 & H2); exists addr; split; assumption.
  - intros Hnil. unfold isTarget. rewrite Hnil. reflexivity.
Qed.

(** X2.  [destroyQueue] on a module without a queue handle makes no call
    and changes nothing; on a module with one it destroys the queue, closes
    the handle, in this order, and forgets it, whatever the two calls
    answer.  A second [destroyQueue] in a row therefore does nothing. *)
Theorem destroyQueue_once (w w' : World) (m : RdpProxy) :
  let r := destroyQueue w m in
  res r = Some tt /\
  queue (st r) = None /\
  same_sessions m (st r) /\
  (queue m = None -> st r = m /\ trace r = []) /\
  (queue m <> None ->
   trace r = [ EQueue DestroyQueue (queueCall w DestroyQueue);
               EQueue Close (queueCall w Close) ]) /\
  destroyQueue w' (st r) = mkRun (Some tt) (st r) [].
Proof.
  cbv zeta. rewrite destroyQueue_run. cbn [res st trace].
  destruct m as [run q qn pt sp cm ac ad]. cbn.
  split; [reflexivity|]. split; [reflexivity|].
  split; [split; reflexivity|]. split; [|split; [|reflexivity]].
  - intros ->. split; reflexivity.
  - intros Hq. destruct q; [reflexivity | congruence].
Qed.

(** X3.  [configureFirewall] runs its lines in order and stops at the
    first one that fails: the lines run are a prefix of the list, all of
    them succeeded except possibly the last, the error returned is that of
    the last line run (or nil when the whole list went through), and the
    module is not touched. *)
Theorem configureFirewall_stops_at_first_failure (w : World)
    (enable : bool) (m : RdpProxy) :
  let r := configureFirewall w enable m in
  let lines := firewall_rules m enable in
  st r = m /\
  exists err ran,
    res r = Some err /\
    rules (trace r) = ran /\
    (exists rest, lines = ran ++ rest) /\
    match err with
    | None => ran = lines /\ lines_pass w lines
    | Some e =>
        exists before line,
          ran = before ++ [line] /\ lines_pass w before /\
          coreExec w "iptables" line = Some e
    end.
Proof.
  cbv zeta. unfold configureFirewall. rewrite bind_run. cbn [get res st trace].
  generalize (firewall_rules m enable) as lines. intros lines.
  assert (H : st (exec_rules w lines m) = m /\
    exists err ran,
      res (exec_rules w lines m) = Some err /\
      rules (trace (exec_rules w lines m)) = ran /\
      (exists rest, lines = ran ++ rest) /\
      match err with
      | None => ran = lines /\ lines_pass w lines
      | Some e =>
          exists before line,
            ran = before ++ [line] /\ lines_pass w before /\
            coreExec w "iptables" line = Some e
      end).
  { induction lines as [|line rest IH]; cbn [exec_rules].
    - split; [reflexivity|]. exists None, []. cbn.
      repeat split; [exists []; reflexivity | intros l []].
    - destruct (exec_rules w rest m) as [r' s' t'] eqn:Hrun.
      cbn [res st trace] in IH.
      rewrite bind_run, Exec_run. cbn [res st trace].
      destruct (coreExec w "iptables" line) as [e|] eqn:He; cbn [res st trace].
      + split; [reflexivity|]. exists (Some e), [line].
        repeat split; [exists rest; reflexivity|].
        exists [], line. repeat split; [intros l []| exact He].
      + rewrite Hrun. cbn [res st trace app].
        destruct IH as (Hst & err & ran & Hres & Hran & [rest' Hpre] & Herr).
        split; [exact Hst|]. exists err, (line :: ran).
        split; [exact Hres|].
        split; [change (line :: rules t' = line :: ran); congruence|].
        split; [exists rest'; cbn; rewrite <- Hpre; reflexivity|].
        destruct err as [e|].
        * destruct Herr as (before & l & -> & Hb & Hl).
          exists (line :: before), l. repeat split; [|exact Hl].
          intros l' [<-|Hin]; [exact He | apply Hb, Hin].
        * destruct Herr as [-> Hall]. split; [reflexivity|].
          intros l' [<-|Hin]; [exact He | apply Hall, Hin]. }
  destruct H as (Hst & err & ran & Hres & Hran & Hpre & Herr).
  destruct (exec_rules w lines m) as [r s t]. cbn in *. subst r.
  cbn. split; [exact Hst|]. exists err, ran. auto.
Qed.

End Helpers.

(** ** Start, again *)

Section StartingMore.

Context {L : PacketLib}.

(** Follow [Start] through the answers of the world. *)
Ltac through Hrun :=
  repeat (wp; cbv zeta;
          cbn [fst snd Running queue cmd queueNum addresses set_Running
               set_cmd set_queueNum set_port set_addresses set_queue
               firewall_rules exec_rules];
          rewrite ?Hrun; cbn [Bool.eqb];
          try lazymatch goal with
              | |- post (let '(_, _) := ?x in _) _ _ => destruct x as [? ?]
              | |- post (orelse ?e _) _ _ => destruct e
              | |- post (match ?x with _ => _ end) _ _ => destruct x eqn:?
              | |- post (configureFirewall _ _) _ _ => unfold configureFirewall
              | |- post (Configure _) _ _ => unfold Configure
              | |- post (SetRunning _ _) _ _ => unfold SetRunning
              | |- post (worker_enter _) _ _ => unfold worker_enter
              | |- post (destroyQueue _) _ _ =>
                  eapply post_run; [apply destroyQueue_run|];
                  cbn [res st trace]
              end).

(** What a [Start] that returns nil has done. *)
Lemma Start_succeeds_post (w : World) (m : RdpProxy) :
  Running m = false ->
  post (Start w) m (fun r s t =>
    r = Some None ->
    validation_error w = None /\
    s = mkRdpProxy true (Some new_Queue)
          (snd (IntParam w "rdp.proxy.queue.num"))
          (snd (IntParam w "rdp.proxy.port")) (startPort m)
          (snd (StringParam w "rdp.proxy.command")) (active m)
          (fst (ParseTargets w (snd (StringParam w "rdp.proxy.targets")))) /\
    t = trace (destroyQueue w m) ++
        [ EInfo "Starting RDP Proxy";
          EDebug ("addresses=" +:+
                  Sprintf_addresses
                    (fst (ParseTargets w
                            (snd (StringParam w "rdp.proxy.targets")))));
          EQueue SetCallback None; EQueue Init None; EQueue Unbind None;
          EQueue Bind None;
          EQueue (CreateQueue (snd (IntParam w "rdp.proxy.queue.num"))) None;
          EQueue SetMode None;
          EExec "iptables" [ "-t"; "nat"; "-N"; "BCAPRDP" ] None;
          EExec "iptables"
            [ "-t"; "nat"; "-I"; "PREROUTING"; "1"; "-j"; "BCAPRDP" ] None;
          EExec "iptables"
            [ "-t"; "nat"; "-A"; "BCAPRDP"; "-p"; "tcp"; "-m"; "tcp";
              "--dport"; Sprintf_d (snd (IntParam w "rdp.proxy.port"));
              "-j"; "NFQUEUE"; "--queue-num";
              Sprintf_d (snd (IntParam w "rdp.proxy.queue.num"));
              "--queue-bypass" ] None;
          EInfo ("started on queue number " +:+
                 Sprintf_d (snd (IntParam w "rdp.proxy.queue.num")));
          EQueue Loop (queueCall w Loop) ]).
Proof.
  intros Hrun. rewrite destroyQueue_run. cbn [trace].
  set (pre := match queue m with Some _ => _ | None => [] end).
  unfold Start, validation_error.
  through Hrun.
  all: intros Heq; try discriminate Heq.
  split; [reflexivity|]. split; [reflexivity|].
  subst pre. cbn [app]. rewrite <- !app_assoc. cbn [app]. reflexivity.
Qed.

(** X4.  A [Start] of a stopped module that returns nil has passed every
    check, has taken port, command, queue number and targets from the
    parameter store, and has made these calls, all of them answered with
    nil, in this order: the queue is set up (callback, init, unbind, bind,
    create with the configured number, copy mode) before the chain is
    created, hooked and given the NFQUEUE rule for the configured port and
    the same queue number, and only then does the worker enter the loop.
    The sessions and the cursor are left as they were. *)
Theorem successful_start_sets_up_in_order (w : World) (m : RdpProxy) :
  Running m = false ->
  res (Start w m) = Some None ->
  let qn := snd (IntParam w "rdp.proxy.queue.num") in
  let pt := snd (IntParam w "rdp.proxy.port") in
  let addrs :=
    fst (ParseTargets w (snd (StringParam w "rdp.proxy.targets"))) in
  validation_error w = None /\
  Start w m =
  mkRun (Some None)
    (mkRdpProxy true (Some new_Queue) qn pt (startPort m)
       (snd (StringParam w "rdp.proxy.command")) (active m) addrs)
    (trace (destroyQueue w m) ++
     [ EInfo "Starting RDP Proxy";
       EDebug ("addresses=" +:+ Sprintf_addresses addrs);
       EQueue SetCallback None; EQueue Init None; EQueue Unbind None;
       EQueue Bind None; EQueue (CreateQueue qn) None; EQueue SetMode None;
       EExec "iptables" [ "-t"; "nat"; "-N"; "BCAPRDP" ] None;
       EExec "iptables"
         [ "-t"; "nat"; "-I"; "PREROUTING"; "1"; "-j"; "BCAPRDP" ] None;
       EExec "iptables"
         [ "-t"; "nat"; "-A"; "BCAPRDP"; "-p"; "tcp"; "-m"; "tcp";
           "--dport"; Sprintf_d pt; "-j"; "NFQUEUE";
           "--queue-num"; Sprintf_d qn; "--queue-bypass" ] None;
       EInfo ("started on queue number " +:+ Sprintf_d qn);
       EQueue Loop (queueCall w Loop) ]).
Proof.
  intros Hrun Hres. cbv zeta.
  destruct (Start_succeeds_post w m Hrun Hres) as (Hv & Hs & Ht).
  split; [exact Hv|].
  destruct (Start w m) as [r s t]. cbn [res st trace] in *. congruence.
Qed.

(** X5.  [Start] on a running module returns the already-started error
    without a call and without touching the module, not even through the
    [destroyQueue] that opens [Configure]; so the [Start] that follows a
    successful [Start] leaves the queue and the chain of the first one
    alone. *)
Theorem second_start_is_rejected (w w' : World) (m : RdpProxy) :
  (Running m = true ->
   Start w m = mkRun (Some (Some (ErrAlreadyStarted Name))) m []) /\
  (Running m = false -> res (Start w m) = Some None ->
   Start w' (st (Start w m)) =
   mkRun (Some (Some (ErrAlreadyStarted Name))) (st (Start w m)) []).
Proof.
  assert (Hrej : forall v s, Running s = true ->
            Start v s = mkRun (Some (Some (ErrAlreadyStarted Name))) s []).
  { intros v s Hs. unfold Start. rewrite bind_run. cbn [get res st trace].
    rewrite Hs. reflexivity. }
  split; [apply Hrej|].
  intros Hrun Hres. apply Hrej.
  destruct (Start_succeeds_post w m Hrun Hres) as (_ & -> & _). reflexivity.
Qed.


End StartingMore.

(** ** Histories of calls *)

Section Histories.

Context {L : PacketLib}.

Lemma sessions_kept_refl (s : RdpProxy) : sessions_kept s s.
Proof. intros k c Hk. exact Hk. Qed.

Lemma sessions_kept_trans (s1 s2 s3 : RdpProxy) :
  sessions_kept s1 s2 -> sessions_kept s2 s3 -> sessions_kept s1 s3.
Proof. intros H12 H23 k c Hk. apply H23, H12, Hk. Qed.

Lemma sessions_kept_same (s s' : RdpProxy) :
  same_sessions s s' -> sessions_kept s s'.
Proof. intros [Ha _] k c Hk. rewrite Ha. exact Hk. Qed.

Lemma handle_sessions_kept (w : World) (payload : Payload) (m : RdpProxy) :
  sessions_kept m (st (handleRdpConnection w payload m)).
Proof.
  destruct (NetworkLayer (NewPacket (Data payload))) as [nl|] eqn:Hn.
  2: { rewrite (handle_no_network _ payload m Hn). apply sessions_kept_refl. }
  destruct (TransportLayer (NewPacket (Data payload))) as [tl|] eqn:Ht.
  2: { rewrite (handle_no_transport _ payload m Ht).
       apply sessions_kept_refl. }
  destruct (isTarget m (Endpoint_String (Dst nl))) eqn:Hyes.
  - destruct (active m !! Sprintf_target (Dst nl) (Dst tl)) as [c|] eqn:Hc.
    + rewrite (handle_existing _ payload m nl tl c Hn Ht Hyes Hc).
      apply sessions_kept_refl.
    + rewrite (handle_new _ payload m nl tl Hn Ht Hyes Hc).
      intros k c Hk. cbn.
      rewrite lookup_insert_ne; [exact Hk|]. intros <-. congruence.
  - rewrite (handle_nontarget _ payload m nl tl Hn Ht Hyes).
    apply sessions_kept_refl.
Qed.

Lemma call_sessions_kept (w : World) (c : Call) (m : RdpProxy) :
  sessions_kept m (st (call w c m)).
Proof.
  destruct c as [|order| |payload]; cbn [call worker_exit];
    rewrite ?bind_run.
  - pose proof (sessions_kept_same _ _ (proj1 (Start_frame w m))) as Hf.
    destruct (res (Start w m)); exact Hf.
  - pose proof (sessions_kept_same _ _ (proj1 (Stop_frame w order m)))
      as Hf.
    destruct (res (Stop w order m)); exact Hf.
  - exact (sessions_kept_same _ _ (proj1 (destroyQueue_frame w m))).
  - unfold OnRDPConnection.
    pose proof (handle_sessions_kept w payload m) as Hf.
    destruct (res (handleRdpConnection w payload m)); exact Hf.
Qed.

Lemma same_config_refl (s : RdpProxy) : same_config s s.
Proof. repeat split. Qed.

Lemma same_config_trans (s1 s2 s3 : RdpProxy) :
  same_config s1 s2 -> same_config s2 s3 -> same_config s1 s3.
Proof.
  unfold same_config. intros (?&?&?&?&?&?) (?&?&?&?&?&?).
  repeat split; congruence.
Qed.

Lemma handle_same_config (w : World) (payload : Payload) :
  obeys same_config (fun _ => True) (handleRdpConnection w payload).
Proof.
  unfold handleRdpConnection, doProxy, doReturn, Cmd_Start, Exec, Info.
  obey same_config_refl same_config_trans;
    try solve [ exact I | repeat split ].
Qed.

Lemma deliver_same_config (packets : list (World * Payload)) :
  obeys same_config (fun _ => True) (deliver packets).
Proof.
  induction packets as [|[w p] rest IH]; cbn [deliver].
  - apply (obeys_ret _ _ same_config_refl same_config_trans).
  - apply (obeys_bind _ _ same_config_refl same_config_trans);
      [apply handle_same_config | intros _; exact IH].
Qed.

Lemma spawned_app (t1 t2 : list Event) :
  spawned (t1 ++ t2) = spawned t1 ++ spawned t2.
Proof. apply flat_map_app. Qed.

Lemma verdicts_app (t1 t2 : list Event) :
  verdicts (t1 ++ t2) = verdicts t1 ++ verdicts t2.
Proof. apply flat_map_app. Qed.

Lemma spawned_none (tr : list Event) : Forall no_spawn tr -> spawned tr = [].
Proof.
  induction 1 as [|e tr He _ IH]; [reflexivity|].
  destruct e; try contradiction; exact IH.
Qed.

Ltac quietly :=
  obey (@anything_refl L) (@anything_trans L);
  try solve [ exact I | reflexivity ].

Lemma Start_no_spawn (w : World) : obeys anything no_spawn (Start w).
Proof.
  unfold Start, SetRunning, worker_enter, Configure, configureFirewall,
    destroyQueue, qcall, Info, Debug.
  quietly.
Qed.

Lemma Stop_no_spawn (w : World) (order : list string) :
  obeys anything no_spawn (Stop w order).
Proof.
  unfold Stop, SetRunning, configureFirewall, qcall.
  quietly.
  apply (obeys_kill_all _ _ (@anything_refl L) (@anything_trans L)).
  intros p. exact I.
Qed.

Lemma worker_exit_no_spawn (w : World) :
  obeys anything no_spawn (worker_exit w).
Proof.
  unfold worker_exit, destroyQueue, qcall. quietly.
Qed.

Lemma cursor_after_add (p : Z) (a b : nat) :
  cursor_after (cursor_after p a) b = cursor_after p (a + b).
Proof.
  unfold cursor_after. rewrite (Nat.add_comm a b), Nat.iter_add. reflexivity.
Qed.

Lemma cursor_after_small (p : Z) (n : nat) :
  - 2 ^ 63 <= p -> p + Z.of_nat n < 2 ^ 63 ->
  cursor_after p n = p + Z.of_nat n.
Proof.
  intros Hlo. induction n as [|n IH]; intros Hhi.
  - cbn. lia.
  - change (cursor_after p (S n)) with (wrap64 (cursor_after p n + 1)).
    rewrite IH by lia. rewrite wrap64_small; lia.
Qed.

(** A run that starts no agent and keeps sessions and cursor. *)
Lemma allocated_nothing {A} (m : RdpProxy) (r : Run A) :
  spawned (trace r) = [] -> same_sessions m (st r) -> allocated m r.
Proof.
  intros Hs [Ha Hp]. unfold allocated. rewrite Hs, Ha, Hp. cbn.
  repeat split. lia.
Qed.

Lemma handle_allocated (w : World) (payload : Payload) (m : RdpProxy) :
  allocated m (handleRdpConnection w payload m).
Proof.
  destruct (NetworkLayer (NewPacket (Data payload))) as [nl|] eqn:Hn.
  2: { rewrite (handle_no_network _ payload m Hn).
       apply allocated_nothing; [reflexivity | apply same_sessions_refl]. }
  destruct (TransportLayer (NewPacket (Data payload))) as [tl|] eqn:Ht.
  2: { rewrite (handle_no_transport _ payload m Ht).
       apply allocated_nothing; [reflexivity | apply same_sessions_refl]. }
  destruct (isTarget m (Endpoint_String (Dst nl))) eqn:Hyes.
  - destruct (active m !! Sprintf_target (Dst nl) (Dst tl)) as [c|] eqn:Hc.
    + rewrite (handle_existing _ payload m nl tl c Hn Ht Hyes Hc).
      apply allocated_nothing; [reflexivity | apply same_sessions_refl].
    + rewrite (handle_new _ payload m nl tl Hn Ht Hyes Hc).
      unfold allocated. cbn.
      rewrite (map_size_insert_None _ _ _ Hc). repeat split. lia.
  - rewrite (handle_nontarget _ payload m nl tl Hn Ht Hyes).
    apply allocated_nothing; [reflexivity | apply same_sessions_refl].
Qed.

Lemma map_seq_from {A} (f : nat -> A) (n a b : nat) :
  List.map f (seq (a + b) n) = List.map (fun i => f (a + i)%nat) (seq b n).
Proof.
  revert b. induction n as [|n IH]; intros b; [reflexivity|].
  cbn [seq List.map]. f_equal. rewrite <- IH. f_equal. f_equal. lia.
Qed.

(** One run after the other. *)
Lemma allocated_then {A B} (m : RdpProxy) (r1 : Run A) (r2 : Run B) :
  allocated m r1 -> allocated (st r1) r2 ->
  allocated m (mkRun (res r2) (st r2) (trace r1 ++ trace r2)).
Proof.
  unfold allocated. cbn [st trace]. intros (Hl1 & Hp1 & Hs1) (Hl2 & Hp2 & Hs2).
  rewrite spawned_app, length_app, map_app, seq_app, map_app.
  rewrite Hl1, Hl2, Hp2, Hs2, Hp1, Hs1, cursor_after_add.
  split; [|split; [reflexivity | lia]].
  f_equal. rewrite Nat.add_comm, map_seq_from.
  apply map_ext. intros i. rewrite cursor_after_add. reflexivity.
Qed.

Lemma call_allocated (w : World) (c : Call) (m : RdpProxy) :
  allocated m (call w c m).
Proof.
  assert (Hret : forall {A} (r : Run A),
            allocated m r ->
            allocated m (match res r with
                         | None => mkRun None (st r) (trace r)
                         | Some a =>
                             mkRun (res (ret tt (st r))) (st (ret tt (st r)))
                                   (trace r ++ trace (ret tt (st r)))
                         end)).
  { intros A r Hr. destruct (res r); cbn [ret st trace res].
    - rewrite app_nil_r. exact Hr.
    - exact Hr. }
  destruct c as [|order| |payload]; cbn [call];
    [rewrite bind_run; apply Hret | rewrite bind_run; apply Hret |
    | rewrite bind_run; apply Hret].
  - apply allocated_nothing.
    + apply spawned_none, (proj2 (Start_no_spawn w m)).
    + apply (proj1 (Start_frame w m)).
  - apply allocated_nothing.
    + apply spawned_none, (proj2 (Stop_no_spawn w order m)).
    + apply (proj1 (Stop_frame w order m)).
  - apply allocated_nothing.
    + apply spawned_none, (proj2 (worker_exit_no_spawn w m)).
    + apply (proj1 (destroyQueue_frame w m)).
  - apply handle_allocated.
Qed.

Lemma run_allocated (calls : list (World * Call)) (m : RdpProxy) :
  allocated m (run calls m).
Proof.
  revert m. induction calls as [|[w c] rest IH]; intros m; cbn [run].
  - apply allocated_nothing; [reflexivity | apply same_sessions_refl].
  - rewrite bind_run. pose proof (call_allocated w c m) as Hc.
    destruct (res (call w c m)); [|exact Hc].
    apply (allocated_then m (call w c m) (run rest (st (call w c m))) Hc).
    apply IH.
Qed.

(** X8.  Over any history of starts, stops and packets the agents are told
    to listen on consecutive ports: the first agent started gets the
    cursor the history began with, each later one the next value, the
    cursor ends after the last of them, and the session map has grown by
    exactly the number of agents started.  Short of the 64-bit overflow
    the Nth agent of the history listens on the initial cursor plus
    N - 1. *)
Theorem ports_are_handed_out_in_order (calls : list (World * Call))
    (m : RdpProxy) :
  let r := run calls m in
  let cs := spawned (trace r) in
  List.map listen_port cs =
    List.map (fun i => Sprintf_d (cursor_after (startPort m) i))
             (seq 0 (length cs)) /\
  startPort (st r) = cursor_after (startPort m) (length cs) /\
  size (active (st r)) = (size (active m) + length cs)%nat /\
  (- 2 ^ 63 <= startPort m ->
   startPort m + Z.of_nat (length cs) < 2 ^ 63 ->
   List.map listen_port cs =
     List.map (fun i => Sprintf_d (startPort m + Z.of_nat i))
              (seq 0 (length cs)) /\
   startPort (st r) = startPort m + Z.of_nat (length cs)).
Proof.
  cbv zeta. destruct (run_allocated calls m) as (Hl & Hp & Hs).
  split; [exact Hl|]. split; [exact Hp|]. split; [exact Hs|].
  intros Hlo Hhi. split.
  - rewrite Hl. apply map_ext_in. intros i Hi. apply in_seq in Hi.
    rewrite cursor_after_small; [reflexivity | lia | lia].
  - rewrite Hp. apply cursor_after_small; lia.
Qed.

(** One packet: a drop verdict if the callback returns, none if it
    panics. *)
Lemma handle_verdict (w : World) (payload : Payload) (m : RdpProxy) :
  let r := handleRdpConnection w payload m in
  (res r = Some 0 /\ verdicts (trace r) = [NF_DROP]) \/
  (res r = None /\ verdicts (trace r) = []).
Proof.
  cbv zeta.
  destruct (NetworkLayer (NewPacket (Data payload))) as [nl|] eqn:Hn.
  2: { rewrite (handle_no_network _ payload m Hn). right. split; reflexivity. }
  destruct (TransportLayer (NewPacket (Data payload))) as [tl|] eqn:Ht.
  2: { rewrite (handle_no_transport _ payload m Ht).
       right. split; reflexivity. }
  left. apply (handle_decoded_drops w payload m nl tl). split; assumption.
Qed.

Lemma handle_panics_iff (w : World) (payload : Payload) (m : RdpProxy) :
  res (handleRdpConnection w payload m) = None <-> has_layers payload = false.
Proof.
  unfold has_layers.
  destruct (NetworkLayer (NewPacket (Data payload))) as [nl|] eqn:Hn.
  2: { rewrite (handle_no_network _ payload m Hn). split; reflexivity. }
  destruct (TransportLayer (NewPacket (Data payload))) as [tl|] eqn:Ht.
  2: { rewrite (handle_no_transport _ payload m Ht). split; reflexivity. }
  destruct (handle_decoded_drops w payload m nl tl (conj Hn Ht)) as [Hr _].
  rewrite Hr. split; discriminate.
Qed.

(** X9.  The callback panics exactly on a packet that lacks a layer, and
    the receive loop sets one drop verdict for each packet before the
    first such packet and no other verdict: that packet and those behind
    it get none.  The loop gets through exactly when every packet has its
    layers, and then there are as many drop verdicts as packets. *)
Theorem every_handled_packet_is_dropped (packets : list (World * Payload))
    (m : RdpProxy) :
  let r := deliver packets m in
  let n := length (handled packets) in
  verdicts (trace r) = repeat NF_DROP n /\
  (n <= length packets)%nat /\
  (res r = Some tt <-> n = length packets) /\
  (res r = None <-> (n < length packets)%nat) /\
  (forall w payload m',
     res (handleRdpConnection w payload m') = None
     <-> has_layers payload = false).
Proof.
  cbv zeta. split; [|split; [|split; [|split]]].
  5: { intros w payload m'. apply handle_panics_iff. }
  all: revert m;
    induction packets as [|[w p] rest IH]; intros m; cbn [deliver handled].
  - reflexivity.
  - unfold OnRDPConnection. rewrite bind_run.
    destruct (has_layers p) eqn:Hp.
    + destruct (handle_verdict w p m) as [[Hr Hv]|[Hr Hv]].
      2: { apply handle_panics_iff in Hr. congruence. }
      rewrite Hr. cbn [res st trace length repeat].
      rewrite verdicts_app, Hv, IH. reflexivity.
    + apply (handle_panics_iff w p m) in Hp as Hr. rewrite Hr.
      destruct (handle_verdict w p m) as [[Hr' Hv]|[_ Hv]]; [congruence|].
      exact Hv.
  - cbn. lia.
  - destruct (has_layers p); cbn [length]; [|lia].
    specialize (IH m). lia.
  - cbn. split; reflexivity.
  - unfold OnRDPConnection. rewrite bind_run.
    destruct (has_layers p) eqn:Hp.
    + destruct (handle_verdict w p m) as [[Hr Hv]|[Hr Hv]].
      2: { apply handle_panics_iff in Hr. congruence. }
      rewrite Hr. cbn [res st trace length].
      rewrite IH. split; [intros ->; reflexivity | intros H; lia].
    + apply (handle_panics_iff w p m) in Hp as Hr. rewrite Hr.
      cbn [res length]. split; discriminate.
  - cbn. split; [discriminate | lia].
  - unfold OnRDPConnection. rewrite bind_run.
    destruct (has_layers p) eqn:Hp.
    + destruct (handle_verdict w p m) as [[Hr Hv]|[Hr Hv]].
      2: { apply handle_panics_iff in Hr. congruence. }
      rewrite Hr. cbn [res st trace length].
      rewrite IH. split; intros H; lia.
    + apply (handle_panics_iff w p m) in Hp as Hr. rewrite Hr.
      cbn [res length]. split; [intros _; lia | reflexivity].
Qed.

(** X7.  No history of starts, stops and packets ever removes a session or
    replaces its command: a session, once made, stays as it was made (so
    the session map never shrinks).  Packets, moreover, change nothing of
    the module but the session map and the cursor. *)
Theorem sessions_are_never_removed (calls : list (World * Call))
    (packets : list (World * Payload)) (m : RdpProxy) :
  sessions_kept m (st (run calls m)) /\
  (size (active m) <= size (active (st (run calls m))))%nat /\
  same_config m (st (deliver packets m)).
Proof.
  assert (Hkept : forall cs s, sessions_kept s (st (run cs s))).
  { induction cs as [|[w c] rest IH]; intros s; cbn [run].
    - apply sessions_kept_refl.
    - rewrite bind_run. pose proof (call_sessions_kept w c s) as Hc.
      destruct (res (call w c s)); cbn [st]; [|exact Hc].
      eapply sessions_kept_trans; [exact Hc | apply IH]. }
  split; [apply Hkept|]. split.
  - apply map_subseteq_size, map_subseteq_spec. apply Hkept.
  - apply (proj1 (deliver_same_config packets m)).
Qed.

End Histories.

(** ** The life cycle as a whole *)

Section LifeCycle.

Context {L : PacketLib}.

(** X10.  [Stop] panics when a tracked command holds no process, which is
    how the callback leaves the session of an agent that could not be
    started: the loop has been told to stop and the firewall lines have
    been run, the kill loop breaks off at that command, and the queue is
    not destroyed; the module still holds its handle. *)
Theorem stop_panics_on_a_failed_spawn (w : World) (order : list string)
    (m : RdpProxy) (k : string) (c : Cmd) :
  Running m = true ->
  queue m <> None ->
  active m !! k = Some c ->
  Process c = None ->
  let r := Stop w order m in
  res r = None /\
  queue (st r) = queue m /\
  same_sessions m (st r) /\
  rules (trace r) = rules (trace (configureFirewall w false m)) /\
  exists fw ps,
    trace r = EQueue StopLoop (queueCall w StopLoop)
              :: fw ++ List.map EKill ps /\
    Forall (fun e => is_exec e = true) fw.
Proof.
  intros Hrun Hq Hk Hc. cbv zeta.
  pose proof (Stop_rules w order m Hrun Hq) as Hrules.
  destruct (Stop_panics w order m k c Hrun Hq Hk Hc)
    as (err & fw & ps & _ & Hexec & _ & Hstop).
  rewrite Hstop in *.
  cbn [res st trace]. split; [reflexivity|]. split; [reflexivity|].
  split; [split; reflexivity|]. split; [exact Hrules|].
  exists fw, ps. split; [reflexivity | exact Hexec].
Qed.










End LifeCycle.

(** ** The parameters that count *)

Section Parameters.

Context {L : PacketLib}.

Lemma bind_ext {A B} (m m' : M A) (k k' : A -> M B) (s : RdpProxy) :
  m s = m' s -> (forall a s1, k a s1 = k' a s1) ->
  bind m k s = bind m' k' s.
Proof.
  intros Hm Hk. unfold bind. rewrite Hm.
  destruct (m' s) as [[a|] s1 t1]; [rewrite Hk|]; reflexivity.
Qed.

Variables w w' : World.
Hypothesis Hsame : same_answers w w'.

Lemma Exec_same (name : string) (args : list string) (s : RdpProxy) :
  Exec w name args s = Exec w' name args s.
Proof.
  unfold Exec. destruct Hsame as (_ & _ & _ & _ & _ & _ & _ & He & _).
  rewrite He. reflexivity.
Qed.

Lemma qcall_same (op : QueueOp) (s : RdpProxy) :
  qcall w op s = qcall w' op s.
Proof.
  unfold qcall. destruct Hsame as (_ & _ & _ & _ & _ & _ & Hq & _).
  rewrite Hq. reflexivity.
Qed.

Lemma Cmd_Start_same (c : Cmd) (s : RdpProxy) :
  Cmd_Start w c s = Cmd_Start w' c s.
Proof.
  unfold Cmd_Start. destruct Hsame as (_ & _ & _ & _ & _ & _ & _ & _ & Hc).
  rewrite Hc. reflexivity.
Qed.

Lemma exec_rules_same (lines : list (list string)) (s : RdpProxy) :
  exec_rules w lines s = exec_rules w' lines s.
Proof.
  revert s. induction lines as [|line rest IH]; intros s; [reflexivity|].
  cbn [exec_rules]. apply bind_ext; [apply Exec_same|].
  intros [e|] s1; [reflexivity | apply IH].
Qed.

Lemma configureFirewall_same (enable : bool) (s : RdpProxy) :
  configureFirewall w enable s = configureFirewall w' enable s.
Proof.
  unfold configureFirewall. apply bind_ext; [reflexivity|].
  intros m s1. apply exec_rules_same.
Qed.

Lemma destroyQueue_same (s : RdpProxy) :
  destroyQueue w s = destroyQueue w' s.
Proof.
  unfold destroyQueue. apply bind_ext; [reflexivity|].
  intros m s1. destruct (queue m); [|reflexivity].
  apply bind_ext; [apply qcall_same|]. intros _ s2.
  apply bind_ext; [apply qcall_same|]. reflexivity.
Qed.

Ltac step := apply bind_ext; [try reflexivity | intros ? ?].
Ltac check_error :=
  lazymatch goal with
  | |- orelse ?e _ _ = orelse ?e _ _ => destruct e; [reflexivity|]; cbn [orelse]
  end.

Lemma Configure_same (s : RdpProxy) : Configure w s = Configure w' s.
Proof.
  unfold Configure.
  destruct Hsame as (Hport & Hcmd & Hnum & Htargets & Hparse & Hlook & _).
  step; [apply destroyQueue_same|].
  rewrite Hport. destruct (IntParam w' "rdp.proxy.port") as [err v].
  step. check_error.
  rewrite Hcmd. destruct (StringParam w' "rdp.proxy.command") as [err v'].
  step. check_error.
  rewrite Hnum. destruct (IntParam w' "rdp.proxy.queue.num") as [err v''].
  step. check_error.
  rewrite Htargets.
  destruct (StringParam w' "rdp.proxy.targets") as [err targets].
  check_error.
  rewrite Hparse. destruct (ParseTargets w' targets) as [addrs err].
  step. check_error.
  step. rewrite Hlook. check_error.
  do 3 step.
  do 6 (step; [apply qcall_same|]; check_error).
  step; [apply configureFirewall_same|]. reflexivity.
Qed.

Lemma Start_same (s : RdpProxy) : Start w s = Start w' s.
Proof.
  unfold Start. step. destruct (Running a); [reflexivity|].
  step; [apply Configure_same|].
  destruct a0; [reflexivity|].
  unfold SetRunning. step.
  destruct (Bool.eqb true (Running a0)); [reflexivity|].
  step. step; [|reflexivity].
  unfold worker_enter. step. step. step; [apply qcall_same|]. reflexivity.
Qed.

Lemma Stop_same (order : list string) (s : RdpProxy) :
  Stop w order s = Stop w' order s.
Proof.
  unfold Stop, SetRunning. step.
  destruct (Bool.eqb false (Running a)); [reflexivity|].
  step. step; [|reflexivity].
  step. step. step; [apply qcall_same|].
  step; [apply configureFirewall_same|]. reflexivity.
Qed.

Lemma handle_same (payload : Payload) (s : RdpProxy) :
  handleRdpConnection w payload s = handleRdpConnection w' payload s.
Proof.
  unfold handleRdpConnection. cbv zeta. do 3 step.
  step; [|reflexivity].
  destruct (isTarget a1 (Endpoint_String (Dst a))).
  - step. destruct (active a1 !! _); [reflexivity|].
    step; [apply Cmd_Start_same|].
    step; [|reflexivity].
    unfold doProxy. step. apply Exec_same.
  - step. step; [|reflexivity]. unfold doReturn. apply Exec_same.
Qed.

Lemma call_same (c : Call) (s : RdpProxy) : call w c s = call w' c s.
Proof.
  destruct c as [|order| |payload]; cbn [call];
    [| | apply destroyQueue_same |]; (step; [|reflexivity]).
  - apply Start_same.
  - apply Stop_same.
  - apply handle_same.
Qed.

(** X21.  Of the six parameters [NewRdpProxy] registers, the module reads
    four, all of them in [Configure]: two worlds that agree on
    [rdp.proxy.port], [rdp.proxy.command], [rdp.proxy.queue.num] and
    [rdp.proxy.targets], and in what the target parser, the path lookup,
    the queue, iptables and [cmd.Start()] answer, give the same result,
    the same module and the same calls for every [Start], [Stop] and
    packet, whatever else the parameter stores hold; [rdp.proxy.start] and
    [rdp.proxy.out], which are registered too, have no effect on
    anything. *)
Theorem only_four_parameters_are_read (c : Call) (m : RdpProxy) :
  call w c m = call w' c m /\
  Forall (fun k => In k (List.map fst registered_params))
    [ "rdp.proxy.port"; "rdp.proxy.command"; "rdp.proxy.queue.num";
      "rdp.proxy.targets"; "rdp.proxy.start"; "rdp.proxy.out" ] /\
  length registered_params = 6%nat.
Proof.
  split; [apply call_same|]. split; [|reflexivity].
  repeat constructor; cbn; tauto.
Qed.

End Parameters.

(** * The packet parsers *)

Section Sniffing.

Context {SL : SniffLib}.

Implicit Types (w : Sniffer) (pkt : SniffPacket) (ip : IPv4Layer).

Lemma and_then_value {A B} (o : Out A) (f : A -> Out B) a :
  value o = Some a -> value (and_then o f) = value (f a).
Proof.
  destruct o as [[x|] t]; cbn; intros H; [|discriminate].
  injection H as ->. now destruct (f a).
Qed.

Lemma and_then_events {A B} (o : Out A) (f : A -> Out B) a :
  value o = Some a -> events (and_then o f) = events o ++ events (f a).
Proof.
  destruct o as [[x|] t]; cbn; intros H; [|discriminate].
  injection H as ->. now destruct (f a).
Qed.

Lemma pushes_app (t t' : list SniffEvent) :
  pushes (t ++ t') = pushes t ++ pushes t'.
Proof. apply flat_map_app. Qed.

Lemma tcpParser_returns w ip pkt verbose :
  value (tcpParser w ip pkt verbose) = Some tt.
Proof.
  unfold tcpParser, ask.
  destruct (Packet_Layer pkt LayerTypeTCP) as [[]|]; try reflexivity.
  destruct (sniParser w ip pkt tcp), (ntlmParser w ip pkt tcp),
    (httpParser w ip pkt tcp), verbose; reflexivity.
Qed.

Lemma udpParser_returns w ip pkt verbose :
  value (udpParser w ip pkt verbose) = Some tt.
Proof.
  unfold udpParser, ask.
  destruct (Packet_Layer pkt LayerTypeUDP) as [[]|]; try reflexivity.
  destruct (dnsParser w ip pkt udp), (mdnsParser w ip pkt udp),
    (krb5Parser w ip pkt udp), verbose; reflexivity.
Qed.

Lemma tcpParser_pushes w ip pkt verbose :
  (length (pushes (events (tcpParser w ip pkt verbose)))
   <= if verbose then 1 else 0)%nat.
Proof.
  unfold tcpParser, ask.
  destruct (Packet_Layer pkt LayerTypeTCP) as [[]|];
    try (cbn; destruct verbose; lia).
  destruct (sniParser w ip pkt tcp), (ntlmParser w ip pkt tcp),
    (httpParser w ip pkt tcp), verbose; cbn; lia.
Qed.

Lemma udpParser_pushes w ip pkt verbose :
  (length (pushes (events (udpParser w ip pkt verbose)))
   <= if verbose then 1 else 0)%nat.
Proof.
  unfold udpParser, ask.
  destruct (Packet_Layer pkt LayerTypeUDP) as [[]|];
    try (cbn; destruct verbose; lia).
  destruct (dnsParser w ip pkt udp), (mdnsParser w ip pkt udp),
    (krb5Parser w ip pkt udp), verbose; cbn; lia.
Qed.

Lemma unkParser_pushes (ip : option IPv4Layer) pkt verbose :
  (length (pushes (events (unkParser ip pkt verbose)))
   <= if verbose then 1 else 0)%nat.
Proof.
  unfold unkParser.
  destruct verbose, (packet_transport pkt), ip; cbn; lia.
Qed.

Lemma icmpParser_pushes (ip : option IPv4Layer) pkt verbose :
  (length (pushes (events (icmpParser ip pkt verbose)))
   <= if verbose then 1 else 0)%nat.
Proof.
  unfold icmpParser.
  destruct verbose, (Packet_Layer pkt LayerTypeICMPv4), ip; cbn; lia.
Qed.

(** What [mainParser] does with the parser it dispatched to. *)
Lemma then_true_value (o : Out unit) :
  value o = Some tt -> value (and_then o (fun _ => done true)) = Some true.
Proof. intros H. now rewrite (and_then_value _ _ tt H). Qed.

Lemma then_true_events (o : Out unit) :
  value o = Some tt ->
  events (and_then o (fun _ => done true)) = events o.
Proof.
  intros H. rewrite (and_then_events _ _ tt H). cbn. apply app_nil_r.
Qed.

Lemma icmpParser_returns ip pkt verbose :
  has_icmp pkt = true -> value (icmpParser (Some ip) pkt verbose) = Some tt.
Proof.
  unfold has_icmp, icmpParser.
  destruct (Packet_Layer pkt LayerTypeICMPv4) as [[]|]; try discriminate.
  now destruct verbose.
Qed.

Lemma unkParser_returns ip pkt verbose tl :
  packet_transport pkt = Some tl ->
  value (unkParser (Some ip) pkt verbose) = Some tt.
Proof. unfold unkParser. intros ->. now destruct verbose. Qed.

Lemma dispatched_returns w ip pkt verbose tl :
  packet_transport pkt = Some tl ->
  value (dispatched w ip pkt verbose tl) = Some tt.
Proof.
  intros H. unfold dispatched.
  destruct (LayerType_eqb _ LayerTypeTCP); [apply tcpParser_returns|].
  destruct (LayerType_eqb _ LayerTypeUDP); [apply udpParser_returns|].
  now apply unkParser_returns with tl.
Qed.

Lemma dispatched_pushes w ip pkt verbose tl :
  (length (pushes (events (dispatched w ip pkt verbose tl)))
   <= if verbose then 1 else 0)%nat.
Proof.
  unfold dispatched.
  destruct (LayerType_eqb _ LayerTypeTCP); [apply tcpParser_pushes|].
  destruct (LayerType_eqb _ LayerTypeUDP); [apply udpParser_pushes|].
  apply unkParser_pushes.
Qed.

(** [mainParser], branch by branch. *)
Lemma mainParser_cases w pkt verbose :
  match packet_network pkt with
  | Some (IsIPv4 ip) =>
      match packet_transport pkt with
      | Some tl =>
          mainParser w pkt verbose
          = and_then (dispatched w ip pkt verbose tl) (fun _ => done true)
      | None =>
          if has_icmp pkt
          then mainParser w pkt verbose
               = and_then (icmpParser (Some ip) pkt verbose)
                   (fun _ => done true)
          else mainParser w pkt verbose
               = mkOut (Some false)
                   [SLog "Missing transport layer skipping packet."]
      end
  | Some _ =>
      exists msg, mainParser w pkt verbose = mkOut (Some false) [SLog msg]
  | None =>
      mainParser w pkt verbose
      = mkOut (Some (Dot11Parse w pkt))
          (if Dot11Parse w pkt then [SDot11 verbose] else [])
  end.
Proof.
  unfold mainParser, has_icmp, dispatched.
  destruct (packet_network pkt) as [[ip|tcp|udp| |t]|]; cbn.
  - destruct (packet_transport pkt) as [tl|]; [reflexivity|].
    destruct (Packet_Layer pkt LayerTypeICMPv4) as [[]|]; reflexivity.
  - eexists; reflexivity.
  - eexists; reflexivity.
  - eexists; reflexivity.
  - destruct (LayerType_eqb t LayerTypeIPv4); eexists; reflexivity.
  - destruct (Dot11Parse w pkt); reflexivity.
Qed.

(** X13.  [mainParser] never panics, whatever the packet, and its answer
    depends neither on [verbose] nor on what the protocol parsers say: it
    is true exactly on an IPv4 packet that has a transport layer or an
    ICMPv4 layer, and on a packet without network layer that parses as
    802.11.  ([icmpParser] and [unkParser] do call a method on a layer
    that may be nil; [mainParser] calls them behind its own checks.) *)
Theorem mainParser_answers_without_panic w pkt verbose :
  value (mainParser w pkt verbose) = Some (accepted w pkt).
Proof.
  pose proof (mainParser_cases w pkt verbose) as H. unfold accepted.
  destruct (packet_network pkt) as [[ip|tcp|udp| |t]|].
  - destruct (packet_transport pkt) as [tl|] eqn:Htl.
    + rewrite H. apply then_true_value. now apply dispatched_returns.
    + destruct (has_icmp pkt) eqn:Hicmp; rewrite H; [|reflexivity].
      apply then_true_value. now apply icmpParser_returns.
  - destruct H as [msg ->]; reflexivity.
  - destruct H as [msg ->]; reflexivity.
  - destruct H as [msg ->]; reflexivity.
  - destruct H as [msg ->]; reflexivity.
  - now rewrite H.
Qed.

(** X14.  On a packet with a TCP layer, [tcpParser] asks the SNI, the
    NTLM and the HTTP parser in this order and stops at the first that
    claims the packet; it pushes its own event, once, exactly when nobody
    claimed the packet and [verbose] is set. *)
Theorem tcpParser_first_claim_wins w ip pkt verbose tcp :
  Packet_Layer pkt LayerTypeTCP = Some (IsTCP tcp) ->
  let run := events (tcpParser w ip pkt verbose) in
  let sni := sniParser w ip pkt tcp in
  let ntlm := ntlmParser w ip pkt tcp in
  let http := httpParser w ip pkt tcp in
  asked run = until_claimed [("sni", sni); ("ntlm", ntlm); ("http", http)]
  /\ length (pushes run)
     = (if verbose && negb (sni || ntlm || http) then 1 else 0)%nat.
Proof.
  intros H. unfold tcpParser, ask. rewrite H.
  destruct (sniParser w ip pkt tcp), (ntlmParser w ip pkt tcp),
    (httpParser w ip pkt tcp), verbose; split; reflexivity.
Qed.

(** X15.  On a packet with a UDP layer, [udpParser] asks the DNS, the
    mDNS and the Kerberos parser in this order and stops at the first
    that claims the packet; it pushes its own event, once, exactly when
    nobody claimed the packet and [verbose] is set. *)
Theorem udpParser_first_claim_wins w ip pkt verbose udp :
  Packet_Layer pkt LayerTypeUDP = Some (IsUDP udp) ->
  let run := events (udpParser w ip pkt verbose) in
  let dns := dnsParser w ip pkt udp in
  let mdns := mdnsParser w ip pkt udp in
  let krb5 := krb5Parser w ip pkt udp in
  asked run = until_claimed [("dns", dns); ("mdns", mdns); ("krb5", krb5)]
  /\ length (pushes run)
     = (if verbose && negb (dns || mdns || krb5) then 1 else 0)%nat.
Proof.
  intros H. unfold udpParser, ask. rewrite H.
  destruct (dnsParser w ip pkt udp), (mdnsParser w ip pkt udp),
    (krb5Parser w ip pkt udp), verbose; split; reflexivity.
Qed.

(** X16.  The parsers of this file push no event of their own when
    [verbose] is off, and at most one per packet when it is on. *)
Theorem at_most_one_event_per_packet w pkt verbose :
  (length (pushes (events (mainParser w pkt verbose)))
   <= if verbose then 1 else 0)%nat.
Proof.
  pose proof (mainParser_cases w pkt verbose) as H.
  assert (Hzero : forall n : nat, n = 0%nat ->
            (n <= if verbose then 1 else 0)%nat)
    by (intros n ->; destruct verbose; lia).
  destruct (packet_network pkt) as [[ip|tcp|udp| |t]|].
  - destruct (packet_transport pkt) as [tl|] eqn:Htl.
    + rewrite H, then_true_events by now apply dispatched_returns.
      apply dispatched_pushes.
    + destruct (has_icmp pkt) eqn:Hicmp; rewrite H; [|now apply Hzero].
      rewrite then_true_events by now apply icmpParser_returns.
      apply icmpParser_pushes.
  - destruct H as [msg ->]; now apply Hzero.
  - destruct H as [msg ->]; now apply Hzero.
  - destruct H as [msg ->]; now apply Hzero.
  - destruct H as [msg ->]; now apply Hzero.
  - rewrite H. apply Hzero. now destruct (Dot11Parse w pkt).
Qed.

(** X17.  Called on its own, [icmpParser] panics exactly when [verbose]
    is set and either the packet has no layer of type ICMPv4 or the
    header pointer it was given is nil: it calls [LayerType] on what
    [pkt.Layer] returned, and reads [ip.SrcIP], without a nil check.  When
    [verbose] is off it touches neither. *)
Theorem icmpParser_panics_without_layer (ip : option IPv4Layer) pkt
    verbose :
  value (icmpParser ip pkt verbose) = None
  <-> verbose = true
      /\ (Packet_Layer pkt LayerTypeICMPv4 = None \/ ip = None).
Proof.
  unfold icmpParser.
  destruct verbose, (Packet_Layer pkt LayerTypeICMPv4), ip; cbn;
    (split; [try discriminate; auto | intros [? [?|?]]; try discriminate;
                                      reflexivity]).
Qed.

(** X18.  Called on its own, [unkParser] panics exactly when [verbose] is
    set and either the packet has no transport layer or the header
    pointer it was given is nil; when [verbose] is off it touches
    neither. *)
Theorem unkParser_panics_without_transport (ip : option IPv4Layer) pkt
    verbose :
  value (unkParser ip pkt verbose) = None
  <-> verbose = true /\ (packet_transport pkt = None \/ ip = None).
Proof.
  unfold unkParser.
  destruct verbose, (packet_transport pkt), ip; cbn;
    (split; [try discriminate; auto | intros [? [?|?]]; try discriminate;
                                      reflexivity]).
Qed.

Lemma dispatched_unpushed w ip pkt tl :
  unpushed (events (dispatched w ip pkt true tl))
  = events (dispatched w ip pkt false tl).
Proof.
  unfold dispatched, tcpParser, udpParser, unkParser, ask.
  destruct (LayerType_eqb _ LayerTypeTCP).
  { destruct (Packet_Layer pkt LayerTypeTCP) as [[]|]; try reflexivity.
    destruct (sniParser w ip pkt tcp), (ntlmParser w ip pkt tcp),
      (httpParser w ip pkt tcp); reflexivity. }
  destruct (LayerType_eqb _ LayerTypeUDP).
  { destruct (Packet_Layer pkt LayerTypeUDP) as [[]|]; try reflexivity.
    destruct (dnsParser w ip pkt udp), (mdnsParser w ip pkt udp),
      (krb5Parser w ip pkt udp); reflexivity. }
  destruct (packet_transport pkt); reflexivity.
Qed.

(** X19.  On a packet with a network layer, [verbose] adds events and
    changes nothing else: with the events pushed taken out, what
    [mainParser] does in verbose mode is what it does in quiet mode; the
    same protocol parsers are asked, with the same answers, and the same
    lines are logged.  A packet without a network layer that parses as
    802.11 is handed to [dot11Parser] together with [verbose]; what that
    does with it is not in this file. *)
Theorem verbose_only_adds_events w pkt :
  (packet_network pkt <> None ->
   unpushed (events (mainParser w pkt true))
   = events (mainParser w pkt false)) /\
  (packet_network pkt = None ->
   forall verbose,
     events (mainParser w pkt verbose)
     = if Dot11Parse w pkt then [SDot11 verbose] else []).
Proof.
  split.
  2: { intros Hn verbose. unfold mainParser. rewrite Hn.
       destruct (Dot11Parse w pkt); reflexivity. }
  intros Hsome.
  destruct (packet_network pkt) as [[ip|tcp|udp| |t]|] eqn:Hn;
    [| | | | |congruence]; clear Hsome.
  - pose proof (mainParser_cases w pkt true) as Ht.
    pose proof (mainParser_cases w pkt false) as Hf.
    rewrite Hn in Ht, Hf.
    destruct (packet_transport pkt) as [tl|] eqn:Htl.
    + rewrite Ht, Hf, !then_true_events by now apply dispatched_returns.
      apply dispatched_unpushed.
    + destruct (has_icmp pkt) eqn:Hicmp; rewrite Ht, Hf; [|reflexivity].
      rewrite !then_true_events by now apply icmpParser_returns.
      unfold icmpParser. unfold has_icmp in Hicmp.
      destruct (Packet_Layer pkt LayerTypeICMPv4) as [[]|];
        try discriminate. reflexivity.
  - unfold mainParser. rewrite Hn. reflexivity.
  - unfold mainParser. rewrite Hn. reflexivity.
  - unfold mainParser. rewrite Hn. reflexivity.
  - unfold mainParser. rewrite Hn. cbn.
    destruct (LayerType_eqb t LayerTypeIPv4); reflexivity.
Qed.

End Sniffing.

(** ** The scenarios of the specification, and where the code departs *)

Import Wire.

(** Scenario A. *)
Example scenario_A :
  handleRdpConnection (fine 4242) (syn attacker 4444 target 3389) running =
  mkRun (Some 0)
    (set_startPort 40001
       (set_active
          {[ "10.0.0.5:3389" :=
               {| Path := "pyrdp-mitm.py";
                  Args := ["pyrdp-mitm.py"; "-l"; "40000"; "10.0.0.5:3389"];
                  Process := Some 4242 |} ]}
          running))
    [ EInfo "CONNECT [10.0.0.9:4444 -> 10.0.0.5:3389]";
      ECmdStart
        {| Path := "pyrdp-mitm.py";
           Args := ["pyrdp-mitm.py"; "-l"; "40000"; "10.0.0.5:3389"];
           Process := None |} None;
      EExec "iptables"
        [ "-t"; "nat"; "-I"; "BCAPRDP"; "1"; "-d"; "10.0.0.5"; "-p"; "tcp";
          "--dport"; "3389"; "-j"; "REDIRECT"; "--to-ports"; "40000" ] None;
      EVerdict NF_DROP ].
Proof. vm_compute. reflexivity. Qed.

(** C1.  An ICMP echo request decodes to an IPv4 layer with no transport
    layer behind it, and gets no verdict at all: the callback panics on the
    nil transport layer before it reaches [SetVerdict]. *)
Theorem packet_without_transport_gets_no_verdict :
  let r := handleRdpConnection (fine 4242) (ping attacker target) running in
  NewPacket (Data (ping attacker target)) =
    mkPacket (Some (mkFlow (IPv4 10 0 0 9) (IPv4 10 0 0 5))) None /\
  res r = None /\ verdicts (trace r) = [] /\ trace r = [].
Proof. vm_compute. repeat split. Qed.

(** The echo request again. *)
Lemma packet_without_layer_panics_witness :
  (NetworkLayer (NewPacket (Data (ping attacker target))) = None \/
   TransportLayer (NewPacket (Data (ping attacker target))) = None) /\
  let r := handleRdpConnection (fine 4242) (ping attacker target) running in
  res r = None /\ verdicts (trace r) = [] /\ trace r = [] /\ st r = running.
Proof.
  split; [right; reflexivity|].
  apply (packet_without_layer_panics (fine 4242) (ping attacker target)
           running).
  right. reflexivity.
Defined.



(** C4.  [Configure] never reads [rdp.proxy.start]: whatever the world,
    [Start] leaves the cursor where it was, and with 50000 in the parameter
    store the first agent of a fresh module is still told to listen on
    40000, the value [NewRdpProxy] gave the cursor. *)
Theorem start_parameter_is_not_read :
  (forall (L : PacketLib) (w : World) (m : RdpProxy),
     startPort (st (Start w m)) = startPort m) /\
  In ("rdp.proxy.start", Some "40000") registered_params /\
  IntParam start_at_50000 "rdp.proxy.start" = (None, 50000) /\
  let started := Start start_at_50000 NewRdpProxy in
  let r := handleRdpConnection start_at_50000
             (syn attacker 4444 target 3389) (st started) in
  res started = Some None /\
  startPort (st started) = 40000 /\
  spawned (trace r) =
    [ {| Path := "pyrdp-mitm.py";
         Args := ["pyrdp-mitm.py"; "-l"; "40000"; "10.0.0.5:3389"];
         Process := None |} ] /\
  List.map listen_port (spawned (trace r)) = ["40000"].
Proof.
  split; [intros L w m; apply (proj1 (Start_frame w m))|].
  split; [cbn; tauto|].
  vm_compute. repeat split.
Qed.

(** C5, as the specification has it, fails: iptables refuses the redirect
    line of a target packet and the RETURN line of a non-target packet,
    and the callback reports exactly what it reports when iptables
    accepts them. *)
Lemma exec_failure_is_not_surfaced :
  let p := syn attacker 4444 target 3389 in
  let q := syn bystander 4444 attacker 443 in
  let failing x := handleRdpConnection iptables_fails x running in
  let passing x := handleRdpConnection (fine 4242) x running in
  List.map (coreExec iptables_fails "iptables") (rules (trace (failing p)))
    = [Some "exit status 1"] /\
  List.map (coreExec iptables_fails "iptables") (rules (trace (failing q)))
    = [Some "exit status 1"] /\
  ~ surfaced (failing p) (passing p) /\
  ~ surfaced (failing q) (passing q).
Proof.
  cbv zeta. split; [vm_compute; reflexivity|].
  split; [vm_compute; reflexivity|].
  split; intros Hs; apply Hs; vm_compute; reflexivity.
Qed.

(** The SYN of scenario A with iptables failing and with iptables
    working. *)
Lemma exec_answer_is_discarded_witness :
  let p := syn attacker 4444 target 3389 in
  (forall c, cmdStart iptables_fails c = cmdStart (fine 4242) c) /\
  let r := handleRdpConnection (fine 4242) p running in
  let r' := handleRdpConnection iptables_fails p running in
  res r' = res r /\ st r' = st r /\
  List.map forget_exec_answer (trace r') =
  List.map forget_exec_answer (trace r) /\
  reports r' = reports r /\
  (forall nl tl, decodes p nl tl -> res r' = Some 0).
Proof.
  cbv zeta. split; [intros c; reflexivity|].
  apply (exec_answer_is_discarded (fine 4242) iptables_fails
           (syn attacker 4444 target 3389) running).
  intros c. reflexivity.
Defined.

(** The SYN of scenario A when the agent cannot be started. *)
Lemma failed_spawn_still_redirects_witness :
  let p := syn attacker 4444 target 3389 in
  let '(nl, tl) := to_target 3389 in
  decodes p nl tl /\
  In "10.0.0.5" (List.map IP_String (addresses running)) /\
  active running !! "10.0.0.5:3389" = None /\
  cmdStart spawn_fails (agent running "10.0.0.5:3389") =
    StartErr "fork/exec pyrdp-mitm.py: permission denied" /\
  let r := handleRdpConnection spawn_fails p running in
  rules (trace r) =
    [ [ "-t"; "nat"; "-I"; "BCAPRDP"; "1"; "-d"; "10.0.0.5"; "-p"; "tcp";
        "--dport"; "3389"; "-j"; "REDIRECT"; "--to-ports"; "40000" ] ] /\
  active (st r) !! "10.0.0.5:3389" =
    Some {| Path := "pyrdp-mitm.py";
            Args := ["pyrdp-mitm.py"; "-l"; "40000"; "10.0.0.5:3389"];
            Process := None |} /\
  startPort (st r) = 40001 /\
  logs (trace r) = [ EInfo "CONNECT [10.0.0.9:4444 -> 10.0.0.5:3389]" ].
Proof.
  cbv zeta. cbn [to_target].
  assert (Hd : decodes (syn attacker 4444 target 3389)
                 (fst (to_target 3389)) (snd (to_target 3389)))
    by (split; vm_compute; reflexivity).
  assert (Hin : In "10.0.0.5" (List.map IP_String (addresses running)))
    by (vm_compute; left; reflexivity).
  assert (Hnone : active running !! "10.0.0.5:3389" = None)
    by (vm_compute; reflexivity).
  split; [exact Hd|]. split; [exact Hin|]. split; [exact Hnone|].
  split; [reflexivity|].
  destruct (failed_spawn_still_redirects spawn_fails
              (syn attacker 4444 target 3389) running _ _ _
              Hd Hin Hnone eq_refl)
    as (_ & Hr & Ha & _ & Hp & Hl & _).
  split; [exact Hr|]. split; [exact Ha|]. split; [exact Hp|]. exact Hl.
Defined.

(** C7, as the specification has it, fails: when the queue refuses the
    copy mode, [Start] returns the error with the handle still in the
    module and the queue still bound; when iptables refuses to hook the
    chain, the chain it has just created stays as well. *)
Lemma failed_start_leaves_queue_and_chain :
  let r := Start set_mode_fails NewRdpProxy in
  let r' := Start hook_fails NewRdpProxy in
  res r = Some (Some "nfq_set_mode failed") /\
  queue (st r) = Some new_Queue /\
  queue_bound (trace r) = true /\
  ~ clean_failure r /\
  res r' = Some (Some "exit status 1") /\
  queue_bound (trace r') = true /\
  chain_exists (trace r') = true /\
  ~ clean_failure r'.
Proof.
  cbv zeta. repeat split; try (vm_compute; reflexivity).
  - intros (_ & Hq & _). vm_compute in Hq. discriminate Hq.
  - intros (_ & Hq & _). vm_compute in Hq. discriminate Hq.
Qed.

(** The agent executable is not on the path, on a module that holds the
    queue handle of a [Start] that failed on the copy mode: the stale
    queue is destroyed and closed, and nothing else is called. *)
Lemma failed_start_undoes_nothing_witness :
  let stale := st (Start set_mode_fails NewRdpProxy) in
  Running stale = false /\
  queue stale = Some new_Queue /\
  res (Configure no_executable stale) =
    Some (Some "executable file not found in $PATH") /\
  let r := Start no_executable stale in
  res r = Some (Some "executable file not found in $PATH") /\
  Running (st r) = false /\
  queue (st r) = None /\
  trace r = [ EQueue DestroyQueue None; EQueue Close None ].
Proof.
  cbv zeta.
  assert (Hrun : Running (st (Start set_mode_fails NewRdpProxy)) = false)
    by (vm_compute; reflexivity).
  assert (Hres : res (Configure no_executable
                        (st (Start set_mode_fails NewRdpProxy)))
                 = Some (Some "executable file not found in $PATH"))
    by (vm_compute; reflexivity).
  split; [exact Hrun|]. split; [vm_compute; reflexivity|].
  split; [exact Hres|].
  pose proof (failed_start_undoes_nothing no_executable
                (st (Start set_mode_fails NewRdpProxy)) _ Hrun Hres) as H.
  cbv zeta in H.
  destruct H as (Hr & Hstopped & Hdestroy & rest & Ht & _ & Hcheck).
  change (validation_error no_executable)
    with (Some "executable file not found in $PATH") in Hcheck.
  destruct Hcheck as (_ & Hrest & Hq).
  split; [exact Hr|]. split; [exact Hstopped|]. split; [exact Hq|].
  rewrite Ht, Hdestroy, Hrest. vm_compute. reflexivity.
Defined.

(** Scenario D. *)
Example scenario_D :
  let r := Start no_executable NewRdpProxy in
  res r = Some (Some "executable file not found in $PATH") /\
  Running (st r) = false /\ queue (st r) = None /\ trace r = [].
Proof. vm_compute. repeat split. Qed.

(** C9 at work.  Three sessions, the agent of the second could not be
    started: [Stop] panics whatever the order of its loop, and when the
    loop begins with that session the agents 1001 and 1002 are not
    killed. *)
Lemma stop_leaves_agents_running_witness :
  let failed := exec_Command "pyrdp-mitm.py"
                  [ "-l"; "40001"; "10.0.0.5:3390" ] in
  reachable crowded /\
  Running crowded = true /\
  queue crowded <> None /\
  active crowded !! "10.0.0.5:3390" = Some failed /\
  Process failed = None /\
  pids (map_to_list (active crowded)) = [1002; 1001] /\
  let stopped := Stop (fine 0) ["10.0.0.5:3390"] crowded in
  res stopped = None /\
  killed (trace stopped) = [] /\
  (forall order, res (Stop (fine 0) order crowded) = None) /\
  size (active (st stopped)) = 3%nat /\
  startPort (st stopped) = 40003.
Proof.
  cbv zeta.
  assert (Hreach : reachable crowded) by (eexists; reflexivity).
  assert (Hrun : Running crowded = true) by (vm_compute; reflexivity).
  assert (Hq : queue crowded <> None) by (vm_compute; discriminate).
  assert (Hk : active crowded !! "10.0.0.5:3390"
               = Some (exec_Command "pyrdp-mitm.py"
                         [ "-l"; "40001"; "10.0.0.5:3390" ]))
    by (vm_compute; reflexivity).
  assert (Hk' : active crowded !! "10.0.0.5:3389"
                = Some (tracked (fine 1001)
                          (agent running "10.0.0.5:3389")))
    by (vm_compute; reflexivity).
  split; [exact Hreach|]. split; [exact Hrun|]. split; [exact Hq|].
  split; [exact Hk|]. split; [reflexivity|].
  split; [vm_compute; reflexivity|].
  destruct (stop_leaves_agents_running (fine 0) [] crowded _ _ _ _ 1001
              Hrun Hq Hk eq_refl Hk' eq_refl)
    as (Hres & Hkill & _ & Hall & Ha & Hp).
  split; [exact Hres|]. split; [exact Hkill|]. split; [exact Hall|].
  split; [rewrite Ha | rewrite Hp]; vm_compute; reflexivity.
Defined.

(** ** The further properties, at work *)



(** ** The further properties, at work *)

(** X2 on the started module: its queue is destroyed and closed, and a
    second [destroyQueue] has nothing to do. *)
Lemma destroyQueue_once_witness :
  queue running <> None /\
  let r := destroyQueue (fine 0) running in
  trace r = [ EQueue DestroyQueue None; EQueue Close None ] /\
  queue (st r) = None /\
  destroyQueue (fine 0) (st r) = mkRun (Some tt) (st r) [].
Proof.
  assert (Hq : queue running <> None) by (vm_compute; discriminate).
  split; [exact Hq|].
  destruct (destroyQueue_once (fine 0) (fine 0) running)
    as (_ & Hnone & _ & _ & Ht & Hagain).
  split; [exact (Ht Hq)|]. split; [exact Hnone | exact Hagain].
Defined.

(** X4 on a fresh module in the world where everything works. *)
Lemma successful_start_sets_up_in_order_witness :
  Running NewRdpProxy = false /\
  res (Start (fine 4242) NewRdpProxy) = Some None /\
  st (Start (fine 4242) NewRdpProxy) =
    mkRdpProxy true (Some new_Queue) 0 3389 40000 "pyrdp-mitm.py"
               (active NewRdpProxy) [target] /\
  List.map rule_command (rules (trace (Start (fine 4242) NewRdpProxy))) =
    [ Some ("-N", "BCAPRDP"); Some ("-I", "PREROUTING");
      Some ("-A", "BCAPRDP") ].
Proof.
  assert (Hrun : Running NewRdpProxy = false) by reflexivity.
  assert (Hres : res (Start (fine 4242) NewRdpProxy) = Some None)
    by (vm_compute; reflexivity).
  split; [exact Hrun|]. split; [exact Hres|].
  pose proof (successful_start_sets_up_in_order (fine 4242) NewRdpProxy
                Hrun Hres) as H.
  cbv zeta in H. destruct H as [_ ->]. split; reflexivity.
Defined.

(** X5: the [Start] that follows a successful [Start]. *)
Lemma second_start_is_rejected_witness :
  Running NewRdpProxy = false /\
  res (Start (fine 4242) NewRdpProxy) = Some None /\
  Start (fine 0) running =
    mkRun (Some (Some (ErrAlreadyStarted Name))) running [].
Proof.
  assert (Hrun : Running NewRdpProxy = false) by reflexivity.
  assert (Hres : res (Start (fine 4242) NewRdpProxy) = Some None)
    by (vm_compute; reflexivity).
  split; [exact Hrun|]. split; [exact Hres|].
  destruct (second_start_is_rejected (fine 4242) (fine 0) NewRdpProxy)
    as [_ H].
  exact (H Hrun Hres).
Defined.


(** X8 on a start and two new sessions. *)
Lemma ports_are_handed_out_in_order_witness :
  let r := run [ (fine 4242, CallStart);
                 (fine 1001, CallPacket (syn attacker 4444 target 3389));
                 (fine 1002, CallPacket (syn attacker 4444 target 3390)) ]
               NewRdpProxy in
  List.map listen_port (spawned (trace r)) = [ "40000"; "40001" ] /\
  startPort (st r) = 40002 /\
  size (active (st r)) = 2%nat.
Proof.
  cbv zeta.
  set (calls := [ (fine 4242, CallStart);
                  (fine 1001, CallPacket (syn attacker 4444 target 3389));
                  (fine 1002, CallPacket (syn attacker 4444 target 3390)) ]).
  assert (Hn : length (spawned (trace (run calls NewRdpProxy))) = 2%nat)
    by (vm_compute; reflexivity).
  pose proof (ports_are_handed_out_in_order calls NewRdpProxy) as H.
  cbv zeta in H. rewrite Hn in H.
  destruct H as (_ & _ & Hsize & Hexact).
  destruct Hexact as [Hports Hcursor].
  - cbn. lia.
  - cbn. lia.
  - split; [exact Hports|]. split; [exact Hcursor | exact Hsize].
Defined.

(** X10: [Stop] after the agent of the one session could not be
    started. *)
Lemma stop_panics_on_a_failed_spawn_witness :
  Running jammed = true /\
  queue jammed <> None /\
  active jammed !! "10.0.0.5:3389"
  = Some (agent running "10.0.0.5:3389") /\
  Process (agent running "10.0.0.5:3389") = None /\
  let r := Stop (fine 0) [] jammed in
  res r = None /\ queue (st r) = queue jammed /\ killed (trace r) = [].
Proof.
  assert (Hrun : Running jammed = true) by (vm_compute; reflexivity).
  assert (Hq : queue jammed <> None) by (vm_compute; discriminate).
  assert (Hk : active jammed !! "10.0.0.5:3389"
               = Some (agent running "10.0.0.5:3389"))
    by (vm_compute; reflexivity).
  assert (Hp : Process (agent running "10.0.0.5:3389") = None)
    by reflexivity.
  split; [exact Hrun|]. split; [exact Hq|]. split; [exact Hk|].
  split; [exact Hp|].
  destruct (stop_panics_on_a_failed_spawn (fine 0) [] jammed _ _
              Hrun Hq Hk Hp) as (Hres & Hqueue & _).
  split; [exact Hres|]. split; [exact Hqueue|].
  vm_compute. reflexivity.
Defined.



(** X14: a TCP segment that the NTLM parser claims, in verbose mode: the
    HTTP parser is not asked and nothing is pushed. *)
Lemma tcpParser_first_claim_wins_witness :
  let tcp := mkTCP (SL := Capture.lib) 4444%N 80%N in
  let run := events (tcpParser (Capture.claims ["ntlm"]) Capture.header
                       Capture.tcp_segment true) in
  Packet_Layer Capture.tcp_segment LayerTypeTCP = Some (IsTCP tcp) /\
  asked run = [ ("sni", false); ("ntlm", true) ] /\
  pushes run = [].
Proof.
  cbv zeta.
  assert (Hl : Packet_Layer Capture.tcp_segment LayerTypeTCP
               = Some (IsTCP (mkTCP (SL := Capture.lib) 4444%N 80%N)))
    by reflexivity.
  split; [exact Hl|].
  pose proof (tcpParser_first_claim_wins (Capture.claims ["ntlm"])
                Capture.header Capture.tcp_segment true _ Hl) as H.
  cbv zeta in H. destruct H as [Hasked Hpushed].
  split; [exact Hasked|].
  apply length_zero_iff_nil. exact Hpushed.
Defined.

(** X15: a UDP datagram that nobody claims, in verbose mode: the three
    parsers are asked and the datagram is reported once. *)
Lemma udpParser_first_claim_wins_witness :
  let udp := mkUDP (SL := Capture.lib) 5353%N 53%N in
  let run := events (udpParser (Capture.claims []) Capture.header
                       Capture.udp_datagram true) in
  Packet_Layer Capture.udp_datagram LayerTypeUDP = Some (IsUDP udp) /\
  asked run = [ ("dns", false); ("mdns", false); ("krb5", false) ] /\
  length (pushes run) = 1%nat.
Proof.
  cbv zeta.
  assert (Hl : Packet_Layer Capture.udp_datagram LayerTypeUDP
               = Some (IsUDP (mkUDP (SL := Capture.lib) 5353%N 53%N)))
    by reflexivity.
  split; [exact Hl|].
  pose proof (udpParser_first_claim_wins (Capture.claims [])
                Capture.header Capture.udp_datagram true _ Hl) as H.
  cbv zeta in H. exact H.
Defined.


(** X21: the parameter store that holds 50000 in [rdp.proxy.start] starts
    the module as the one that holds 40000 does. *)
Lemma only_four_parameters_are_read_witness :
  same_answers (fine 4242) start_at_50000 /\
  IntParam (fine 4242) "rdp.proxy.start"
  <> IntParam start_at_50000 "rdp.proxy.start" /\
  call (fine 4242) CallStart NewRdpProxy
  = call start_at_50000 CallStart NewRdpProxy.
Proof.
  assert (Hsame : same_answers (fine 4242) start_at_50000).
  { do 4 (split; [reflexivity|]).
    split; [intros targets; reflexivity|].
    split; [intros file; reflexivity|].
    split; [intros op; reflexivity|].
    split; [intros name args; reflexivity | intros c; reflexivity]. }
  split; [exact Hsame|]. split; [vm_compute; discriminate|].
  destruct (only_four_parameters_are_read (fine 4242) start_at_50000 Hsame
              CallStart NewRdpProxy) as [Hcall _].
  exact Hcall.
Defined.

(** X9: a SYN, an ICMP echo request and a second SYN reach a started
    module: the first SYN is dropped, the callback panics on the echo
    request, and the second SYN is never looked at. *)
Lemma every_handled_packet_is_dropped_witness :
  let packets := [ (fine 1001, syn attacker 4444 target 3389);
                   (fine 0, ping attacker target);
                   (fine 1002, syn attacker 4444 target 3390) ] in
  let r := deliver packets running in
  length (handled packets) = 1%nat /\
  res r = None /\
  verdicts (trace r) = [NF_DROP].
Proof.
  cbv zeta.
  set (packets := [ (fine 1001, syn attacker 4444 target 3389);
                    (fine 0, ping attacker target);
                    (fine 1002, syn attacker 4444 target 3390) ]).
  assert (Hn : length (handled packets) = 1%nat) by (vm_compute; reflexivity).
  pose proof (every_handled_packet_is_dropped packets running) as H.
  cbv zeta in H. destruct H as (Hv & _ & _ & Hnone & _).
  rewrite Hn in Hv, Hnone.
  split; [exact Hn|]. split; [|exact Hv].
  apply Hnone. cbn. lia.
Defined.

(** X19: a TCP segment nobody claims is reported in verbose mode only,
    and the three parsers are asked in either mode; a frame without
    network layer goes to [dot11Parser] with the flag. *)
Lemma verbose_only_adds_events_witness :
  let w := Capture.claims ["dot11"] in
  packet_network Capture.tcp_segment <> None /\
  packet_network Capture.beacon = None /\
  length (pushes (events (mainParser w Capture.tcp_segment true))) = 1%nat /\
  unpushed (events (mainParser w Capture.tcp_segment true))
  = events (mainParser w Capture.tcp_segment false) /\
  events (mainParser w Capture.beacon true) = [SDot11 true] /\
  events (mainParser w Capture.beacon false) = [SDot11 false].
Proof.
  cbv zeta.
  assert (Hn : packet_network Capture.tcp_segment <> None) by discriminate.
  assert (Hb : packet_network Capture.beacon = None) by reflexivity.
  split; [exact Hn|]. split; [exact Hb|]. split; [reflexivity|].
  destruct (verbose_only_adds_events (Capture.claims ["dot11"])
              Capture.tcp_segment) as [Hquiet _].
  destruct (verbose_only_adds_events (Capture.claims ["dot11"])
              Capture.beacon) as [_ Hdot11].
  split; [exact (Hquiet Hn)|].
  split; [exact (Hdot11 Hb true) | exact (Hdot11 Hb false)].
Defined.
